(** * configure.py: generation of the [.bazelrc] build configuration

    A shallow embedding of [configure.py] of TensorFlow Recommenders-Addons.

    Python values are modelled as follows.
    - [str] is [string]; a character is a code point below 256, which covers
      every version string, flag and path made of ASCII or Latin-1 text.
    - [int] is [Z].
    - An exception is a value of [exn], one constructor per [raise] site of
      the script and per built-in exception that the script can trigger.
    - Everything the script asks of its surroundings (the [platform] module,
      the installed TensorFlow, the process environment, the [bazel] and
      [tar] subprocesses) is a field of the record [host].
    - The file [.bazelrc] is the component [bazelrc] of [world]: [None] when
      the file is missing, [Some text] when it is a regular file.

    Console output ([print], [logging]) changes neither the file nor the
    outcome of a run and is left out. *)

From Stdlib Require Import ZArith List Bool Ascii String DecimalString Lia.
Import ListNotations.

Local Open Scope list_scope.
Local Open Scope string_scope.
Local Open Scope Z_scope.

(** ** Python strings *)

Module PyStr.

(** [len(s)] *)
Definition len (s : string) : Z := Z.of_nat (String.length s).

Fixpoint drop (n : nat) (s : string) : string :=
  match n, s with
  | O, _ => s
  | S _, EmptyString => EmptyString
  | S k, String _ r => drop k r
  end.

Fixpoint take (n : nat) (s : string) : string :=
  match n, s with
  | O, _ => EmptyString
  | S _, EmptyString => EmptyString
  | S k, String c r => String c (take k r)
  end.

(** An index of a slice, brought into [0 .. len s] the way Python does. *)
Definition clamp (s : string) (k : Z) : Z :=
  if k <? 0 then Z.max (k + len s) 0 else Z.min k (len s).

(** [s[i:j]]; [None] stands for an omitted bound. *)
Definition slice (i j : option Z) (s : string) : string :=
  let start := match i with None => 0 | Some k => clamp s k end in
  let stop := match j with None => len s | Some k => clamp s k end in
  take (Z.to_nat (stop - start)) (drop (Z.to_nat start) s).

(** [s.split(sep)] for a separator of one character. *)
Fixpoint split (sep : ascii) (s : string) : list string :=
  match s with
  | EmptyString => [EmptyString]
  | String c r =>
      if Ascii.eqb c sep then EmptyString :: split sep r
      else match split sep r with
           | [] => [String c EmptyString]
           | x :: xs => String c x :: xs
           end
  end.

Definition code (c : ascii) : N := N_of_ascii c.

(** [c.isspace()] on code points below 256. *)
Definition isspace (c : ascii) : bool :=
  let n := code c in
  ((9 <=? n) && (n <=? 13) || (28 <=? n) && (n <=? 32)
   || (n =? 133) || (n =? 160))%N.

Fixpoint lstrip (s : string) : string :=
  match s with
  | EmptyString => EmptyString
  | String c r => if isspace c then lstrip r else s
  end.

Fixpoint rstrip (s : string) : string :=
  match s with
  | EmptyString => EmptyString
  | String c r =>
      match rstrip r with
      | EmptyString => if isspace c then EmptyString else String c EmptyString
      | r' => String c r'
      end
  end.

(** [s.strip()] *)
Definition strip (s : string) : string := rstrip (lstrip s).

(** [s.startswith(p)] *)
Fixpoint startswith (p s : string) : bool :=
  match p, s with
  | EmptyString, _ => true
  | String _ _, EmptyString => false
  | String a p', String b s' => Ascii.eqb a b && startswith p' s'
  end.

(** [s.replace(old, new)] for a non-empty [old]: the occurrences of [old]
    are replaced from left to right, and the search resumes after each
    one.  [skip] counts the characters of a match still to be passed. *)
Fixpoint replace_from (old new : string) (skip : nat) (s : string) : string :=
  match s with
  | EmptyString => EmptyString
  | String c r =>
      match skip with
      | S k => replace_from old new k r
      | O =>
          if startswith old s
          then new ++ replace_from old new (Nat.pred (String.length old)) r
          else String c (replace_from old new O r)
      end
  end.

Definition replace (old new s : string) : string := replace_from old new O s.

(** [str(n)] for an [int]. *)
Definition str (n : Z) : string := NilZero.string_of_int (Z.to_int n).

(** The white space that [int()] skips at both ends of its argument. *)
Definition int_space (c : ascii) : bool :=
  let n := code c in
  ((9 <=? n) && (n <=? 13) || (n =? 32) || (n =? 133) || (n =? 160))%N.

Definition digit (c : ascii) : option Z :=
  let n := code c in
  if ((48 <=? n) && (n <=? 57))%N then Some (Z.of_N n - 48) else None.

Fixpoint skip_space (cs : list ascii) : list ascii :=
  match cs with
  | c :: r => if int_space c then skip_space r else cs
  | [] => []
  end.

(** Digits with single underscores between them; [pending] records that
    the previous character was an underscore. *)
Fixpoint digits (acc : Z) (pending : bool) (cs : list ascii) : option Z :=
  match cs with
  | [] => if pending then None else Some acc
  | c :: r =>
      match digit c with
      | Some d => digits (acc * 10 + d) false r
      | None =>
          if Ascii.eqb c "_" && negb pending then digits acc true r else None
      end
  end.

Definition number (cs : list ascii) : option Z :=
  match cs with
  | c :: r => match digit c with Some d => digits d false r | None => None end
  | [] => None
  end.

(** [int(s)] in base 10: [None] is Python's
    [ValueError: invalid literal for int() with base 10]. *)
Definition int (s : string) : option Z :=
  let cs := rev (skip_space (rev (skip_space (list_ascii_of_string s)))) in
  match cs with
  | c :: r =>
      if Ascii.eqb c "+" then number r
      else if Ascii.eqb c "-" then option_map Z.opp (number r)
      else number cs
  | [] => None
  end.

(** [a < b] and [a >= b] on strings: code point by code point. *)
Definition lt (a b : string) : bool := String.ltb a b.
Definition ge (a b : string) : bool := String.leb b a.

End PyStr.

(** ** Exceptions and results *)

(** The exceptions a run can end with.  The comment of each gives the line
    of [configure.py] that raises it. *)
Inductive exn : Type :=
| ImportError_tensorflow                        (* 141 *)
| ValueError_wrong_version (version : string)   (* 161 *)
| ValueError_int_literal (text : string)        (* int(), 162 *)
| ValueError_version_flag (tf_version_num : string)          (* 164 *)
| ValueError_unsupported_version (tf_version : string)       (* 50 *)
| ValueError_bazel_version (installed valid : string)        (* 182 *)
| ValueError_bazel_macos_arm64 (installed valid : string)    (* 190 *)
| ValueError_tar (tar_path : string)            (* 205 *)
| IndexError
| AttributeError.

Inductive result (A : Type) : Type :=
| Ok (a : A)
| Raise (e : exn).

Arguments Ok {A} a.
Arguments Raise {A} e.

Definition rbind {A B : Type} (r : result A) (k : A -> result B) : result B :=
  match r with
  | Ok a => k a
  | Raise e => Raise e
  end.

Declare Scope result_scope.
Delimit Scope result_scope with result.
Notation "x <- r ;; k" := (rbind r (fun x => k))
  (at level 61, r at next level, right associativity) : result_scope.
Notation "r ;; k" := (rbind r (fun _ => k))
  (at level 61, right associativity) : result_scope.

(** [xs[i]] on a list: [IndexError] out of range. *)
Definition index {A : Type} (xs : list A) (i : nat) : result A :=
  match nth_error xs i with
  | Some x => Ok x
  | None => Raise IndexError
  end.

(** [int(s)], with the exception it raises. *)
Definition py_int (s : string) : result Z :=
  match PyStr.int s with
  | Some n => Ok n
  | None => Raise (ValueError_int_literal s)
  end.

(** ** The surroundings of a run *)

Record host : Type := {
  platform_system : string;           (* platform.system() *)
  platform_machine : string;          (* platform.machine() *)
  os_uname_machine : option string;   (* os.uname()[4]; None: no os.uname *)
  tf_version : option string;         (* tf.__version__; None: no attribute *)
  get_compile_flags : list string;    (* tf.sysconfig.get_compile_flags() *)
  get_link_flags : list string;       (* tf.sysconfig.get_link_flags() *)
  CXX11_ABI_FLAG : Z;                 (* tf.sysconfig.CXX11_ABI_FLAG *)
  script_dir : string;    (* os.path.dirname(os.path.abspath(__file__)) *)
  getenv : string -> option string;   (* os.getenv(name) *)
  bazel_label : string;   (* os.popen('bazel version |grep label').read() *)
  os_system : string -> Z             (* os.system(cmd) *)
}.

Definition getenv_default (h : host) (name default : string) : string :=
  match getenv h name with
  | Some v => v
  | None => default
  end.

Definition _TFRA_BAZELRC : string := ".bazelrc".

Definition is_macos (h : host) : bool := String.eqb (platform_system h) "Darwin".
Definition is_windows (h : host) : bool := String.eqb (platform_system h) "Windows".
Definition is_linux (h : host) : bool := String.eqb (platform_system h) "Linux".
Definition is_arm64 (h : host) : bool := String.eqb (platform_machine h) "arm64".

Definition is_raspi_arm (h : host) : result bool :=
  match os_uname_machine h with
  | Some m => Ok (String.eqb m "armv7l")
  | None => Raise AttributeError
  end.

(** ** Version handling *)

(** The body of the [try] of [get_tf_version_integer]: the unpacking into
    three names and the three assertions.  [None] stands for any exception
    raised in it, all of which the bare [except] catches. *)
Definition split_version (version : string)
  : option (string * string * string) :=
  match PyStr.split "." version with
  | [major; minor; patch] =>
      if (PyStr.len major =? 1) && (PyStr.len minor <=? 2)
         && (PyStr.len patch =? 1)
      then Some (major, minor, patch)
      else None
  | _ => None
  end.

Definition get_tf_version_integer (h : host) : result Z :=
  match tf_version h with
  | None => Raise ImportError_tensorflow
  | Some version =>
      match split_version version with
      | None => Raise (ValueError_wrong_version version)
      | Some (major, minor, patch) =>
          (ma <- py_int major ;;
           mi <- py_int minor ;;
           pa <- py_int patch ;;
           let tf_version_num := PyStr.str (ma * 1000 + mi * 10 + pa) in
           if negb (PyStr.len tf_version_num =? 4)
           then Raise (ValueError_version_flag tf_version_num)
           else py_int tf_version_num)%result
      end
  end.

(** Maping TensorFlow version to valid Bazel version. *)
Definition _VALID_BAZEL_VERSION (h : host) (tf_version : string)
  : result string :=
  if is_macos h && is_arm64 h then Ok "4.1.0"
  else if PyStr.lt tf_version "2.0.0" then Ok "0.26.1"
  else if PyStr.ge tf_version "2.0.0" then Ok "4.2.1"
  else Raise (ValueError_unsupported_version tf_version).

(** ** The installed Bazel *)

(** [tf.__version__] read outside any [try]. *)
Definition tf_version_attr (h : host) : result string :=
  match tf_version h with
  | Some v => Ok v
  | None => Raise AttributeError
  end.

Definition _get_installed_and_valid_bazel_version (h : host)
  : result (string * string) :=
  (field <- index (PyStr.split ":" (bazel_label h)) 1 ;;
   let installed_bazel_version := PyStr.strip field in
   version <- tf_version_attr h ;;
   valid_bazel_version <- _VALID_BAZEL_VERSION h version ;;
   Ok (installed_bazel_version, valid_bazel_version))%result.

Definition check_bazel_version (h : host) : result unit :=
  (iv <- _get_installed_and_valid_bazel_version h ;;
   let '(installed_bazel_version, valid_bazel_version) := iv in
   if negb (String.eqb installed_bazel_version valid_bazel_version)
   then Raise (ValueError_bazel_version installed_bazel_version
                                        valid_bazel_version)
   else Ok tt)%result.

Definition check_bazel_version_for_macOS_arm64 (h : host) : result unit :=
  (iv <- _get_installed_and_valid_bazel_version h ;;
   let '(installed_bazel_version, valid_bazel_version) := iv in
   if PyStr.lt installed_bazel_version valid_bazel_version
   then Raise (ValueError_bazel_macos_arm64 installed_bazel_version
                                            valid_bazel_version)
   else Ok tt)%result.

(** ** Paths of the installed TensorFlow *)

Definition get_tf_header_dir (h : host) : result string :=
  (n <- get_tf_version_integer h ;;
   if 2000 <=? n then
     flag <- index (get_compile_flags h) 0 ;;
     let tf_header_dir := PyStr.slice (Some 2) None flag in
     if is_windows h then Ok (PyStr.replace "\" "/" tf_header_dir)
     else Ok tf_header_dir
   else
     let current_path := script_dir h in
     version <- tf_version_attr h ;;
     Ok (current_path ++ "/build_deps/tf_header/" ++ version
           ++ "/tensorflow"))%result.

Definition get_tf_shared_lib_dir (h : host) : result string :=
  (if is_windows h then
     flag <- index (get_compile_flags h) 0 ;;
     let tf_shared_lib_dir := PyStr.slice (Some 2) (Some (-7)) flag ++ "python" in
     Ok (PyStr.replace "\" "/" tf_shared_lib_dir)
   else
     raspi <- is_raspi_arm h ;;
     if (raspi : bool) then
       flag <- index (get_compile_flags h) 0 ;;
       Ok (PyStr.slice (Some 2) (Some (-7)) flag ++ "python")
     else
       flag <- index (get_link_flags h) 0 ;;
       Ok (PyStr.slice (Some 2) None flag))%result.

(** Converts the linkflag namespec to the full shared library name *)
Definition get_shared_lib_name (h : host) : result string :=
  (let namespec := get_link_flags h in
   if is_macos h then Ok "libtensorflow_framework.dylib"
   else if is_windows h then Ok "_pywrap_tensorflow_internal.lib"
   else
     raspi <- is_raspi_arm h ;;
     if (raspi : bool) then Ok "_pywrap_tensorflow_internal.so"
     else
       flag <- index namespec 1 ;;
       Ok (PyStr.slice (Some 3) None flag))%result.

(** The [tar] subprocess unpacks the bundled headers; of its effects only
    the exit status matters to the rest of the run. *)
Definition extract_tf_header (h : host) : result unit :=
  (tf_header_dir <- get_tf_header_dir h ;;
   tf_version_integer <- get_tf_version_integer h ;;
   if tf_version_integer <? 2000 then
     version <- tf_version_attr h ;;
     let _output_dir :=
       PyStr.slice None (Some (- PyStr.len (version ++ "/tensorflow")))
                   tf_header_dir in
     let _tar_path := PyStr.replace "/tensorflow" ".tar.gz" tf_header_dir in
     let _cmd := "tar -zxvf " ++ _tar_path ++ " --directory " ++ _output_dir
                   ++ " >/dev/null 2>&1" in
     let ret := os_system h _cmd in
     if negb (ret =? 0) then Raise (ValueError_tar _tar_path) else Ok tt
   else Ok tt)%result.

(** ** The configuration file *)

(** [written] is the history of the arguments that [write] received in this
    run, oldest first.  The script does not read it: it is there to speak
    about the lines of a run one by one. *)
Record world : Type := {
  bazelrc : option string;
  written : list string
}.

(** The state of the file system when a run starts. *)
Definition start (file : option string) : world :=
  {| bazelrc := file; written := [] |}.

Definition M (A : Type) : Type := world -> result A * world.

Definition ret {A : Type} (a : A) : M A := fun w => (Ok a, w).

Definition bind {A B : Type} (m : M A) (k : A -> M B) : M B :=
  fun w =>
    match m w with
    | (Ok a, w') => k a w'
    | (Raise e, w') => (Raise e, w')
    end.

(** A computation that only reads the host. *)
Definition lift {A : Type} (r : result A) : M A := fun w => (r, w).

Declare Scope run_scope.
Delimit Scope run_scope with run.
Notation "x <- m ;; k" := (bind m (fun x => k))
  (at level 61, m at next level, right associativity) : run_scope.
Notation "m ;; k" := (bind m (fun _ => k))
  (at level 61, right associativity) : run_scope.

Definition newline : string := String (ascii_of_N 10) EmptyString.
Definition dquote : string := String (ascii_of_N 34) EmptyString.

Definition file_text (w : world) : string :=
  match bazelrc w with
  | Some text => text
  | None => EmptyString
  end.

(** Writes variables to bazelrc file: [open(_TFRA_BAZELRC, "a")] creates a
    missing file and appends to an existing one. *)
Definition write (line : string) : M unit :=
  fun w =>
    (Ok tt, {| bazelrc := Some (file_text w ++ (line ++ newline));
               written := (written w ++ [line])%list |}).

Definition write_action_env (var_name var : string) : M unit :=
  write ("build --action_env " ++ var_name ++ "=" ++ dquote ++ var ++ dquote).

(** [if os.path.isfile(_TFRA_BAZELRC): os.remove(_TFRA_BAZELRC)] *)
Definition remove_bazelrc : M unit :=
  fun w => (Ok tt, {| bazelrc := None; written := written w |}).

Definition when (b : bool) (m : M unit) : M unit := if b then m else ret tt.

Definition configure_cuda (h : host) : M unit :=
  (write_action_env "TF_NEED_CUDA" "1" ;;
   write_action_env "CUDA_TOOLKIT_PATH"
     (getenv_default h "CUDA_TOOLKIT_PATH" "/usr/local/cuda") ;;
   write_action_env "CUDNN_INSTALL_PATH"
     (getenv_default h "CUDNN_INSTALL_PATH" "/usr/lib/x86_64-linux-gnu") ;;
   write_action_env "TF_CUDA_VERSION" (getenv_default h "TF_CUDA_VERSION" "11.0") ;;
   write_action_env "TF_CUDNN_VERSION" (getenv_default h "TF_CUDNN_VERSION" "8.0") ;;
   write "test --config=cuda" ;;
   write "build --config=cuda" ;;
   write "build:cuda --define=using_cuda=true --define=using_cuda_nvcc=true" ;;
   write "build:cuda --crosstool_top=@local_config_cuda//crosstool:toolchain")%run.

Definition configure_rocm (h : host) : M unit :=
  (write_action_env "TF_NEED_ROCM" "1" ;;
   write_action_env "ROCM_PATH" (getenv_default h "ROCM_PATH" "/opt/rocm") ;;
   write "test --config=rocm" ;;
   write "build --config=rocm" ;;
   write "build:rocm --define=using_rocm_hipcc=true" ;;
   write "build:rocm --define=tensorflow_mkldnn_contraction_kernel=0" ;;
   write "build:rocm --repo_env TF_NEED_ROCM=1" ;;
   write "build:rocm --crosstool_top=@local_config_rocm//crosstool:toolchain")%run.

Definition create_build_configuration (h : host) : M unit :=
  (remove_bazelrc ;;
   when (is_linux h) (lift (check_bazel_version h)) ;;
   when (is_macos h && is_arm64 h)
        (lift (check_bazel_version_for_macOS_arm64 h)) ;;
   lift (extract_tf_header h) ;;

   tf_header_dir <- lift (get_tf_header_dir h) ;;
   write_action_env "TF_HEADER_DIR" tf_header_dir ;;
   tf_shared_lib_dir <- lift (get_tf_shared_lib_dir h) ;;
   write_action_env "TF_SHARED_LIBRARY_DIR" tf_shared_lib_dir ;;
   shared_lib_name <- lift (get_shared_lib_name h) ;;
   write_action_env "TF_SHARED_LIBRARY_NAME" shared_lib_name ;;
   write_action_env "TF_CXX11_ABI_FLAG" (PyStr.str (CXX11_ABI_FLAG h)) ;;

   tf_version_integer <- lift (get_tf_version_integer h) ;;
   write_action_env "TF_VERSION_INTEGER" (PyStr.str tf_version_integer) ;;

   write_action_env "FOR_TF_SERVING" (getenv_default h "FOR_TF_SERVING" "0") ;;

   write "build --spawn_strategy=standalone" ;;
   write "build --strategy=Genrule=standalone" ;;
   write "build -c opt" ;;

   when (is_windows h)
        (write "build --config=windows" ;;
         write "build:windows --enable_runfiles" ;;
         write "build:windows --copt=/experimental:preprocessor" ;;
         write "build:windows --host_copt=/experimental:preprocessor" ;;
         write "build:windows --copt=/arch=AVX") ;;

   when (is_macos h || is_linux h)
        (when (negb (is_arm64 h)) (write "build --copt=-mavx")) ;;

   if String.eqb (getenv_default h "TF_NEED_CUDA" "0") "1" then
     configure_cuda h
   else if String.eqb (getenv_default h "TF_NEED_ROCM" "0") "1" then
     configure_rocm h
   else ret tt)%run.

(** ** Sample hosts *)

Module Sample.

Definition no_env (name : string) : option string := None.

(** An environment with one variable set. *)
Definition env1 (var value : string) (name : string) : option string :=
  if String.eqb name var then Some value else None.

(** An environment with two variables set. *)
Definition env2 (var1 value1 var2 value2 : string) (name : string)
  : option string :=
  if String.eqb name var1 then Some value1
  else if String.eqb name var2 then Some value2
  else None.

(** A host whose TensorFlow sits under [/opt/tf] and whose [tar] works. *)
Definition make (system machine version label : string)
           (env : string -> option string) : host :=
  {| platform_system := system;
     platform_machine := machine;
     os_uname_machine :=
       if String.eqb system "Windows" then None else Some machine;
     tf_version := Some version;
     get_compile_flags := ["-I/opt/tf/include"; "-D_GLIBCXX_USE_CXX11_ABI=0"];
     get_link_flags := ["-L/opt/tf"; "-l:libtensorflow_framework.so.2"];
     CXX11_ABI_FLAG := 0;
     script_dir := "/src";
     getenv := env;
     bazel_label := label;
     os_system := fun _ => 0 |}.

(** A host of which only the TensorFlow version is of interest. *)
Definition of_version (version : string) : host :=
  make "Linux" "x86_64" version "Build label: 4.2.1" no_env.

Definition linux : host :=
  make "Linux" "x86_64" "2.5.1" "Build label: 4.2.1" no_env.
Definition linux_old_tf : host :=
  make "Linux" "x86_64" "1.15.2" "Build label: 0.26.1" no_env.
Definition linux_rocm : host :=
  make "Linux" "x86_64" "2.5.1" "Build label: 4.2.1" (env1 "TF_NEED_ROCM" "1").
Definition linux_cuda_rocm : host :=
  make "Linux" "x86_64" "2.5.1" "Build label: 4.2.1"
       (env2 "TF_NEED_CUDA" "1" "TF_NEED_ROCM" "1").
Definition linux_cuda_true : host :=
  make "Linux" "x86_64" "2.5.1" "Build label: 4.2.1"
       (env2 "TF_NEED_CUDA" "true" "TF_NEED_ROCM" "1").
Definition linux_wrong_bazel : host :=
  make "Linux" "x86_64" "2.5.1" "Build label: 5.0.0" no_env.
Definition macos_arm64 : host :=
  make "Darwin" "arm64" "2.5.1" "Build label: 4.2.1" no_env.
Definition macos_arm64_old_bazel : host :=
  make "Darwin" "arm64" "2.5.1" "Build label: 3.7.2" no_env.
Definition macos_x86_wrong_bazel : host :=
  make "Darwin" "x86_64" "2.5.1" "Build label: 3.7.2" no_env.
Definition windows : host :=
  make "Windows" "AMD64" "2.5.1" "Build label: 4.2.1" no_env.
Definition windows_wrong_bazel : host :=
  make "Windows" "AMD64" "2.5.1" "Build label: 3.7.2" no_env.

End Sample.

(** * Vocabulary of the statements *)

(** ** Version strings *)

(** [sep in s] for a single character. *)
Fixpoint has_char (sep : ascii) (s : string) : bool :=
  match s with
  | EmptyString => false
  | String c r => Ascii.eqb c sep || has_char sep r
  end.

(** A version string made of three pieces without a dot, of the lengths the
    script asserts. *)
Definition three_components (version : string) : Prop :=
  exists major minor patch,
    version = major ++ "." ++ minor ++ "." ++ patch
    /\ has_char "." major = false
    /\ has_char "." minor = false
    /\ has_char "." patch = false
    /\ String.length major = 1%nat
    /\ (String.length minor <= 2)%nat
    /\ String.length patch = 1%nat.

(** The character of the decimal digit [d]. *)
Definition digit_char (d : Z) : ascii := ascii_of_N (Z.to_N (48 + d)).

(** The text of a sequence of decimal digits, and the number it denotes. *)
Definition numeral (ds : list Z) : string :=
  fold_right (fun d s => String (digit_char d) s) EmptyString ds.

Definition value (ds : list Z) : Z :=
  fold_left (fun acc d => acc * 10 + d) ds 0.

Definition is_digit (d : Z) : Prop := 0 <= d <= 9.

(** The version string [M.mm.p] with major digit [M], minor digits [minor]
    and patch digit [p]. *)
Definition version_text (M : Z) (minor : list Z) (p : Z) : string :=
  numeral [M] ++ "." ++ numeral minor ++ "." ++ numeral [p].

(** The numbers [lo], ..., [lo + n - 1]. *)
Definition range (lo n : nat) : list Z := map Z.of_nat (seq lo n).

(** The minor parts of one or two digits. *)
Definition minors : list (list Z) :=
  (map (fun a => [a]) (range 0 10)
   ++ flat_map (fun a => map (fun b => [a; b]) (range 0 10)) (range 0 10))%list.

(** [get_tf_version_integer] returns [M*1000 + mm*10 + p] on [M.mm.p], a
    number of four digits. *)
Definition encodes (M : Z) (minor : list Z) (p : Z) : bool :=
  match get_tf_version_integer (Sample.of_version (version_text M minor p)) with
  | Ok n =>
      (n =? M * 1000 + value minor * 10 + p) && (PyStr.len (PyStr.str n) =? 4)
  | Raise _ => false
  end.

(** ** Lines and files *)

(** The world once [.bazelrc] has been removed. *)
Definition removed (w : world) : world := snd (remove_bazelrc w).

(** The world after the lines [ls] have been written, one after the other. *)
Fixpoint add (ls : list string) (w : world) : world :=
  match ls with
  | [] => w
  | l :: r => add r (snd (write l w))
  end.

(** The text of a file made of the lines [ls]. *)
Fixpoint unlines (ls : list string) : string :=
  match ls with
  | [] => EmptyString
  | l :: r => l ++ newline ++ unlines r
  end.

(** ** The lines of a run *)

(** The lines of the file, as the script formats them. *)
Definition action_env (var value : string) : string :=
  "build --action_env " ++ var ++ "=" ++ dquote ++ value ++ dquote.

Definition cuda_lines (h : host) : list string :=
  [ action_env "TF_NEED_CUDA" "1";
    action_env "CUDA_TOOLKIT_PATH"
      (getenv_default h "CUDA_TOOLKIT_PATH" "/usr/local/cuda");
    action_env "CUDNN_INSTALL_PATH"
      (getenv_default h "CUDNN_INSTALL_PATH" "/usr/lib/x86_64-linux-gnu");
    action_env "TF_CUDA_VERSION" (getenv_default h "TF_CUDA_VERSION" "11.0");
    action_env "TF_CUDNN_VERSION" (getenv_default h "TF_CUDNN_VERSION" "8.0");
    "test --config=cuda";
    "build --config=cuda";
    "build:cuda --define=using_cuda=true --define=using_cuda_nvcc=true";
    "build:cuda --crosstool_top=@local_config_cuda//crosstool:toolchain" ].

Definition rocm_lines (h : host) : list string :=
  [ action_env "TF_NEED_ROCM" "1";
    action_env "ROCM_PATH" (getenv_default h "ROCM_PATH" "/opt/rocm");
    "test --config=rocm";
    "build --config=rocm";
    "build:rocm --define=using_rocm_hipcc=true";
    "build:rocm --define=tensorflow_mkldnn_contraction_kernel=0";
    "build:rocm --repo_env TF_NEED_ROCM=1";
    "build:rocm --crosstool_top=@local_config_rocm//crosstool:toolchain" ].

Definition need_cuda (h : host) : bool :=
  String.eqb (getenv_default h "TF_NEED_CUDA" "0") "1".

Definition need_rocm (h : host) : bool :=
  String.eqb (getenv_default h "TF_NEED_ROCM" "0") "1".

Definition gpu_lines (h : host) : list string :=
  if need_cuda h then cuda_lines h
  else if need_rocm h then rocm_lines h
  else [].

Definition windows_lines (h : host) : list string :=
  if is_windows h then
    [ "build --config=windows";
      "build:windows --enable_runfiles";
      "build:windows --copt=/experimental:preprocessor";
      "build:windows --host_copt=/experimental:preprocessor";
      "build:windows --copt=/arch=AVX" ]
  else [].

Definition avx_lines (h : host) : list string :=
  if (is_macos h || is_linux h) && negb (is_arm64 h)
  then ["build --copt=-mavx"] else [].

Definition tf_lines (h : host) (hdr dir name : string) (n : Z) : list string :=
  [ action_env "TF_HEADER_DIR" hdr;
    action_env "TF_SHARED_LIBRARY_DIR" dir;
    action_env "TF_SHARED_LIBRARY_NAME" name;
    action_env "TF_CXX11_ABI_FLAG" (PyStr.str (CXX11_ABI_FLAG h));
    action_env "TF_VERSION_INTEGER" (PyStr.str n);
    action_env "FOR_TF_SERVING" (getenv_default h "FOR_TF_SERVING" "0") ].

Definition strategy_lines : list string :=
  [ "build --spawn_strategy=standalone";
    "build --strategy=Genrule=standalone";
    "build -c opt" ].

(** The full sequence of lines of a run that succeeds. *)
Definition config_lines (h : host) (hdr dir name : string) (n : Z)
  : list string :=
  (tf_lines h hdr dir name n ++ strategy_lines ++ windows_lines h
   ++ avx_lines h ++ gpu_lines h)%list.

(** The checks that precede the first [write]: the Bazel version on Linux,
    the Bazel version on macOS arm64, the unpacking of the headers. *)
Definition validation (h : host) : result unit :=
  ((if is_linux h then check_bazel_version h else Ok tt) ;;
   (if is_macos h && is_arm64 h
    then check_bazel_version_for_macOS_arm64 h else Ok tt) ;;
   extract_tf_header h)%result.

(** The result of a run and the lines it writes. *)
Definition outcome (h : host) : result unit * list string :=
  match validation h with
  | Raise e => (Raise e, [])
  | Ok _ =>
      match get_tf_header_dir h with
      | Raise e => (Raise e, [])
      | Ok hdr =>
          match get_tf_shared_lib_dir h with
          | Raise e => (Raise e, [action_env "TF_HEADER_DIR" hdr])
          | Ok dir =>
              match get_shared_lib_name h with
              | Raise e =>
                  (Raise e, [action_env "TF_HEADER_DIR" hdr;
                             action_env "TF_SHARED_LIBRARY_DIR" dir])
              | Ok name =>
                  match get_tf_version_integer h with
                  | Raise e =>
                      (Raise e, firstn 4 (tf_lines h hdr dir name 0))
                  | Ok n => (Ok tt, config_lines h hdr dir name n)
                  end
              end
          end
      end
  end.

(** [emits m r ls]: from any world, [m] ends with [r] after writing the
    lines [ls], and does nothing else to the world. *)
Definition emits {A : Type} (m : M A) (r : result A) (ls : list string) : Prop :=
  forall w, m w = (r, add ls w).

(** ** Exceptions of the specification *)

(** The two exceptions that report an unsuitable Bazel. *)
Definition bazel_mismatch (e : exn) : bool :=
  match e with
  | ValueError_bazel_version _ _ => true
  | ValueError_bazel_macos_arm64 _ _ => true
  | _ => false
  end.

(** ** The forms of a line *)

(** [build --action_env VAR="VALUE"] *)
Definition is_action_env_line (l : string) : Prop :=
  exists var value,
    var <> EmptyString
    /\ l = "build --action_env " ++ var ++ "=" ++ dquote ++ value ++ dquote.

(** [build <flag>] *)
Definition is_build_line (l : string) : Prop :=
  exists flag, flag <> EmptyString /\ l = "build " ++ flag.

(** [build:<config> <flag>] *)
Definition is_build_config_line (l : string) : Prop :=
  exists config flag,
    config <> EmptyString /\ has_char " " config = false
    /\ flag <> EmptyString
    /\ l = "build:" ++ config ++ " " ++ flag.

Definition directive_form (l : string) : Prop :=
  is_action_env_line l \/ is_build_line l \/ is_build_config_line l.






(** [sub in s] *)
Fixpoint contains (sub s : string) : bool :=
  PyStr.startswith sub s
  || match s with
     | EmptyString => false
     | String _ r => contains sub r
     end.

Definition mentions_avx (l : string) : bool :=
  contains "avx" l || contains "AVX" l.

(** ** GPU directives *)

(** The lines that a computation writes when run on its own. *)
Definition block (m : M unit) : list string := written (snd (m (start None))).

(** A CUDA directive is a line that [configure_cuda] writes on some host,
    a ROCm directive one that [configure_rocm] writes on some host. *)
Definition cuda_directive (l : string) : Prop :=
  exists h', In l (block (configure_cuda h')).

Definition rocm_directive (l : string) : Prop :=
  exists h', In l (block (configure_rocm h')).


Definition not_gpu (l : string) : Prop :=
  ~ cuda_directive l /\ ~ rocm_directive l.

(** The lines that precede the GPU block. *)
Definition cpu_lines (h : host) (hdr dir name : string) (n : Z) : list string :=
  (tf_lines h hdr dir name n ++ strategy_lines ++ windows_lines h
   ++ avx_lines h)%list.

(** ** Further hosts and checks *)

(** The host [h] with another [tar]: [os.system] answers by [f]. *)
Definition with_os_system (h : host) (f : string -> Z) : host :=
  {| platform_system := platform_system h;
     platform_machine := platform_machine h;
     os_uname_machine := os_uname_machine h;
     tf_version := tf_version h;
     get_compile_flags := get_compile_flags h;
     get_link_flags := get_link_flags h;
     CXX11_ABI_FLAG := CXX11_ABI_FLAG h;
     script_dir := script_dir h;
     getenv := getenv h;
     bazel_label := bazel_label h;
     os_system := f |}.

(** The host [h] with another TensorFlow: [tf.__version__] is [v], or is
    missing when [v] is [None]. *)
Definition with_tf_version (h : host) (v : option string) : host :=
  {| platform_system := platform_system h;
     platform_machine := platform_machine h;
     os_uname_machine := os_uname_machine h;
     tf_version := v;
     get_compile_flags := get_compile_flags h;
     get_link_flags := get_link_flags h;
     CXX11_ABI_FLAG := CXX11_ABI_FLAG h;
     script_dir := script_dir h;
     getenv := getenv h;
     bazel_label := bazel_label h;
     os_system := os_system h |}.

(** The host [h] with other link flags. *)
Definition with_link_flags (h : host) (flags : list string) : host :=
  {| platform_system := platform_system h;
     platform_machine := platform_machine h;
     os_uname_machine := os_uname_machine h;
     tf_version := tf_version h;
     get_compile_flags := get_compile_flags h;
     get_link_flags := flags;
     CXX11_ABI_FLAG := CXX11_ABI_FLAG h;
     script_dir := script_dir h;
     getenv := getenv h;
     bazel_label := bazel_label h;
     os_system := os_system h |}.

(** The 256 characters. *)
Definition all_ascii : list ascii := map ascii_of_nat (seq 0 256).

(** [int()] of a string of one character is a digit, if anything. *)
Definition int1_ok (c : ascii) : bool :=
  match PyStr.int (String c EmptyString) with
  | Some v => (0 <=? v) && (v <=? 9)
  | None => true
  end.

(** [int()] of a string of two characters lies between -9 and 99, if
    anything. *)
Definition int2_ok (a b : ascii) : bool :=
  match PyStr.int (String a (String b EmptyString)) with
  | Some v => (-9 <=? v) && (v <=? 99)
  | None => true
  end.

(** A number whose decimal text has four characters is at least 1000, and
    [int()] reads the text back. *)
Definition four_digits_ok (m : Z) : bool :=
  implb (PyStr.len (PyStr.str m) =? 4)
        ((1000 <=? m)
         && match PyStr.int (PyStr.str m) with
            | Some v => v =? m
            | None => false
            end).

(** The numbers from -90 to 9999. *)
Definition version_sums : list Z :=
  map (fun k => Z.of_nat k - 90) (seq 0 (10 * 1009)).

(** The order of strings and the order of numbers agree on [M.mm.p]. *)
Definition agrees (M : Z) (minor : list Z) (p : Z) : bool :=
  Bool.eqb (PyStr.lt (version_text M minor p) "2.0.0")
           (M * 1000 + value minor * 10 + p <? 2000).

(** The exception of the last branch of [_VALID_BAZEL_VERSION]. *)
Definition unsupported (e : exn) : bool :=
  match e with
  | ValueError_unsupported_version _ => true
  | _ => false
  end.

(** The host [h] with other compile flags. *)
Definition with_compile_flags (h : host) (flags : list string) : host :=
  {| platform_system := platform_system h;
     platform_machine := platform_machine h;
     os_uname_machine := os_uname_machine h;
     tf_version := tf_version h;
     get_compile_flags := flags;
     get_link_flags := get_link_flags h;
     CXX11_ABI_FLAG := CXX11_ABI_FLAG h;
     script_dir := script_dir h;
     getenv := getenv h;
     bazel_label := bazel_label h;
     os_system := os_system h |}.

(** The host [h] with another output of [bazel version |grep label]. *)
Definition with_bazel_label (h : host) (label : string) : host :=
  {| platform_system := platform_system h;
     platform_machine := platform_machine h;
     os_uname_machine := os_uname_machine h;
     tf_version := tf_version h;
     get_compile_flags := get_compile_flags h;
     get_link_flags := get_link_flags h;
     CXX11_ABI_FLAG := CXX11_ABI_FLAG h;
     script_dir := script_dir h;
     getenv := getenv h;
     bazel_label := label;
     os_system := os_system h |}.

(** Hosts for the edges of the script. *)
Definition windows_backslash : host :=
  with_compile_flags Sample.windows ["-IC:\tf\include"].

Definition raspberry : host :=
  Sample.make "Linux" "armv7l" "2.5.1" "Build label: 4.2.1" Sample.no_env.

Definition linux_one_link_flag : host :=
  with_link_flags Sample.linux ["-L/opt/tf"].

(** A Linux host with TensorFlow 1.15.2 whose [tar] succeeds on one command
    line only. *)
Definition linux_old_tf_strict_tar : host :=
  with_os_system Sample.linux_old_tf
    (fun cmd =>
       if String.eqb cmd
            "tar -zxvf /src/build_deps/tf_header/1.15.2.tar.gz --directory /src/build_deps/tf_header/ >/dev/null 2>&1"
       then 0 else 2).

(** A Linux host with TensorFlow 2.5.1 whose [tar] always fails. *)
Definition linux_broken_tar : host :=
  with_os_system Sample.linux (fun _ => 2).

(** Hosts without TensorFlow, or rather with a module [tf] that has no
    [__version__]. *)
Definition windows_no_tf : host := with_tf_version Sample.windows None.

Definition linux_no_tf : host := with_tf_version Sample.linux None.

(** A Linux host where [bazel version |grep label] prints nothing. *)
Definition linux_no_bazel : host := with_bazel_label Sample.linux EmptyString.

(** A macOS arm64 host with Bazel 10.0.0. *)
Definition macos_arm64_bazel_10 : host :=
  Sample.make "Darwin" "arm64" "2.5.1" "Build label: 10.0.0" Sample.no_env.

(** A line without a newline. *)
Definition one_line (l : string) : Prop := has_char (ascii_of_N 10) l = false.

(** ** The file as a reader sees it *)

(** The lines of [.bazelrc]: the text split at the newlines, without the
    empty piece that follows the last newline; none when the file is
    missing. *)
Definition file_lines (w : world) : list string :=
  match bazelrc w with
  | Some text => removelast (PyStr.split (ascii_of_N 10) text)
  | None => []
  end.

(** A host of which no path of TensorFlow and no value of the environment
    holds a newline. *)
Definition plain_host (h : host) : Prop :=
  (forall dir, get_tf_header_dir h = Ok dir -> one_line dir)
  /\ (forall dir, get_tf_shared_lib_dir h = Ok dir -> one_line dir)
  /\ (forall name, get_shared_lib_name h = Ok name -> one_line name)
  /\ (forall var value, getenv h var = Some value -> one_line value).


(** A string made of decimal digits only. *)
Fixpoint all_digits (s : string) : bool :=
  match s with
  | EmptyString => true
  | String c r =>
      match PyStr.digit c with
      | Some _ => all_digits r
      | None => false
      end
  end.

(** On [0.mm.p], [get_tf_version_integer] raises the error of line 164 with
    the text of [mm*10 + p], which has fewer than four characters. *)
Definition rejects_zero (minor : list Z) (p : Z) : bool :=
  match get_tf_version_integer (Sample.of_version (version_text 0 minor p)) with
  | Raise (ValueError_version_flag t) =>
      String.eqb t (PyStr.str (value minor * 10 + p))
      && (PyStr.len t <? 4)
  | _ => false
  end.

(** * Properties *)

(** ** Strings: splitting and joining *)

Lemma append_assoc (a b c : string) : (a ++ b) ++ c = a ++ (b ++ c).
Proof.
  induction a as [|x a IH]; simpl; [reflexivity|]. now rewrite IH.
Qed.

Lemma append_empty_r (a : string) : a ++ EmptyString = a.
Proof.
  induction a as [|x a IH]; simpl; [reflexivity|]. now rewrite IH.
Qed.

Lemma length_append (a b : string) :
  String.length (a ++ b) = (String.length a + String.length b)%nat.
Proof.
  induction a as [|x a IH]; simpl; [reflexivity|]. now rewrite IH.
Qed.

Lemma has_char_append (c : ascii) (a b : string) :
  has_char c (a ++ b) = has_char c a || has_char c b.
Proof.
  induction a as [|x a IH]; simpl; [reflexivity|].
  now rewrite IH, orb_assoc.
Qed.

Lemma split_not_nil (sep : ascii) (s : string) : PyStr.split sep s <> [].
Proof.
  destruct s as [|c r]; simpl; [discriminate|].
  destruct (Ascii.eqb c sep); [discriminate|].
  destruct (PyStr.split sep r); discriminate.
Qed.

(** Joining the pieces of a split with the separator gives the string back,
    and no piece holds the separator. *)
Lemma split_join (sep : ascii) (s : string) :
  String.concat (String sep EmptyString) (PyStr.split sep s) = s
  /\ Forall (fun x => has_char sep x = false) (PyStr.split sep s).
Proof.
  induction s as [|c r [IHj IHf]]; simpl.
  - split; [reflexivity|]. repeat constructor.
  - destruct (Ascii.eqb c sep) eqn:E.
    + apply Ascii.eqb_eq in E. subst c. split.
      * pose proof (split_not_nil sep r) as Hn.
        destruct (PyStr.split sep r) as [|x xs]; [contradiction|].
        simpl in *. now rewrite IHj.
      * constructor; [reflexivity | exact IHf].
    + pose proof (split_not_nil sep r) as Hn.
      destruct (PyStr.split sep r) as [|x xs]; [contradiction|]. split.
      * destruct xs as [|y ys]; simpl in *; now rewrite IHj.
      * inversion IHf as [|? ? Hx Hxs]; subst.
        constructor; [simpl; now rewrite E, Hx | exact Hxs].
Qed.

Lemma split_no_sep (sep : ascii) (a : string) :
  has_char sep a = false -> PyStr.split sep a = [a].
Proof.
  induction a as [|c r IH]; simpl; [reflexivity|].
  intros H. apply orb_false_iff in H as [Hc Hr].
  now rewrite Hc, (IH Hr).
Qed.

Lemma split_app (sep : ascii) (a b : string) :
  has_char sep a = false ->
  PyStr.split sep (a ++ String sep b) = a :: PyStr.split sep b.
Proof.
  induction a as [|c r IH]; simpl.
  - intros _. now rewrite Ascii.eqb_refl.
  - intros H. apply orb_false_iff in H as [Hc Hr].
    now rewrite Hc, (IH Hr).
Qed.

(** ** Results *)

Lemma rbind_raise {A B : Type} (r : result A) (k : A -> result B) (e : exn) :
  rbind r k = Raise e ->
  r = Raise e \/ exists a, r = Ok a /\ k a = Raise e.
Proof.
  destruct r as [a|e']; cbn [rbind]; intros H.
  - right. now exists a.
  - left. now injection H as ->.
Qed.

Lemma rbind_ok {A B : Type} (r : result A) (k : A -> result B) (b : B) :
  rbind r k = Ok b -> exists a, r = Ok a /\ k a = Ok b.
Proof.
  destruct r as [a|e']; cbn [rbind]; intros H; [now exists a | discriminate H].
Qed.

Lemma index_raise {A : Type} (xs : list A) (i : nat) (e : exn) :
  index xs i = Raise e -> e = IndexError.
Proof.
  unfold index. destruct (nth_error xs i); congruence.
Qed.

Lemma py_int_raise (s : string) (e : exn) :
  py_int s = Raise e -> e = ValueError_int_literal s.
Proof.
  unfold py_int. destruct (PyStr.int s); congruence.
Qed.

Lemma tf_version_attr_raise (h : host) (e : exn) :
  tf_version_attr h = Raise e -> e = AttributeError.
Proof.
  unfold tf_version_attr. destruct (tf_version h); congruence.
Qed.

Lemma is_raspi_arm_raise (h : host) (e : exn) :
  is_raspi_arm h = Raise e -> e = AttributeError.
Proof.
  unfold is_raspi_arm. destruct (os_uname_machine h); congruence.
Qed.

(** ** The version integer *)

Lemma split_version_some (version major minor patch : string) :
  split_version version = Some (major, minor, patch) ->
  version = major ++ "." ++ minor ++ "." ++ patch
  /\ has_char "." major = false /\ has_char "." minor = false
  /\ has_char "." patch = false
  /\ String.length major = 1%nat /\ (String.length minor <= 2)%nat
  /\ String.length patch = 1%nat.
Proof.
  unfold split_version, PyStr.len. intros H.
  destruct (split_join "." version) as [Hj Hf].
  destruct (PyStr.split "." version) as [|a [|b [|c [|d l]]]];
    try discriminate H.
  destruct (_ && _) eqn:E in H; [|discriminate H].
  injection H as -> -> ->.
  apply andb_true_iff in E as [E Hp]. apply andb_true_iff in E as [Hma Hmi].
  apply Z.eqb_eq in Hma, Hp. apply Z.leb_le in Hmi.
  apply Forall_cons_iff in Hf as [F1 Hf].
  apply Forall_cons_iff in Hf as [F2 Hf].
  apply Forall_cons_iff in Hf as [F3 _].
  simpl in Hj. repeat split; try assumption; try lia.
  symmetry. exact Hj.
Qed.

Lemma split_version_three_components (version : string) :
  three_components version <-> split_version version <> None.
Proof.
  split.
  - intros (major & minor & patch & -> & Hma & Hmi & Hpa & L1 & L2 & L3).
    unfold split_version, PyStr.len.
    change (major ++ "." ++ minor ++ "." ++ patch)
      with (major ++ String "." (minor ++ String "." patch)).
    rewrite (split_app "." major _ Hma), (split_app "." minor _ Hmi),
      (split_no_sep "." patch Hpa).
    rewrite L1, L3.
    replace (Z.of_nat (String.length minor) <=? 2) with true
      by (symmetry; apply Z.leb_le; lia).
    discriminate.
  - intros H. destruct (split_version version) as [[[major minor] patch]|] eqn:E;
      [|contradiction].
    exists major, minor, patch. now apply split_version_some.
Qed.

Lemma get_tf_version_integer_ext (h h' : host) :
  tf_version h = tf_version h' ->
  get_tf_version_integer h = get_tf_version_integer h'.
Proof.
  unfold get_tf_version_integer. now intros ->.
Qed.

Lemma in_range (lo n : nat) (x : Z) :
  Z.of_nat lo <= x < Z.of_nat (lo + n) -> In x (range lo n).
Proof.
  intros H. unfold range. apply in_map_iff. exists (Z.to_nat x). split.
  - lia.
  - apply in_seq. lia.
Qed.

Lemma in_minors (minor : list Z) :
  Forall is_digit minor -> (1 <= List.length minor <= 2)%nat -> In minor minors.
Proof.
  unfold minors, is_digit. intros Hd Hl. apply in_or_app.
  destruct minor as [|a [|b [|c l]]]; simpl in Hl; try lia.
  - left. apply in_map_iff. exists a. split; [reflexivity|].
    apply Forall_cons_iff in Hd as [Ha _]. apply in_range. simpl. lia.
  - right. apply Forall_cons_iff in Hd as [Ha Hd].
    apply Forall_cons_iff in Hd as [Hb _].
    apply in_flat_map. exists a. split; [apply in_range; simpl; lia|].
    apply in_map_iff. exists b. split; [reflexivity|].
    apply in_range. simpl. lia.
Qed.

(** Every version with a major digit from 1 to 9 is encoded as stated: the
    9 * 110 * 10 version strings are run through the function. *)
Lemma encodes_all :
  forallb (fun M =>
    forallb (fun minor =>
      forallb (fun p => encodes M minor p) (range 0 10)) minors) (range 1 9)
  = true.
Proof. vm_compute. reflexivity. Qed.

Lemma encodes_spec (M : Z) (minor : list Z) (p : Z) :
  1 <= M <= 9 -> Forall is_digit minor -> (1 <= List.length minor <= 2)%nat ->
  is_digit p -> encodes M minor p = true.
Proof.
  intros HM Hd Hl Hp.
  pose proof encodes_all as H.
  rewrite forallb_forall in H.
  specialize (H M (in_range 1 9 M ltac:(simpl; lia))).
  rewrite forallb_forall in H.
  specialize (H minor (in_minors minor Hd Hl)).
  rewrite forallb_forall in H.
  apply H. apply in_range. unfold is_digit in Hp. simpl. lia.
Qed.

Lemma rejects_zero_all :
  forallb (fun minor => forallb (fun p => rejects_zero minor p) (range 0 10))
          minors = true.
Proof. vm_compute. reflexivity. Qed.

Lemma rejects_zero_spec (minor : list Z) (p : Z) :
  Forall is_digit minor -> (1 <= List.length minor <= 2)%nat -> is_digit p ->
  rejects_zero minor p = true.
Proof.
  intros Hd Hl Hp.
  pose proof rejects_zero_all as H.
  rewrite forallb_forall in H.
  specialize (H minor (in_minors minor Hd Hl)).
  rewrite forallb_forall in H.
  apply H. apply in_range. unfold is_digit in Hp. simpl. lia.
Qed.

(** C1, as the code has it: take a version string [M.mm.p] whose major part
    is one digit, whose minor part is one or two digits and whose patch
    part is one digit.  For a major digit from 1 to 9,
    [get_tf_version_integer] returns [M*1000 + mm*10 + p], and the decimal
    text of that number has exactly four characters, so the length check
    does not fire.  For the major digit 0 the text of [mm*10 + p] has fewer
    than four characters and the function raises the error of line 164,
    which carries that text. *)
Theorem version_integer_encoding (h : host) (M : Z) (minor : list Z) (p : Z) :
  0 <= M <= 9 ->
  Forall is_digit minor -> (1 <= List.length minor <= 2)%nat ->
  is_digit p ->
  tf_version h = Some (version_text M minor p) ->
  (1 <= M ->
   get_tf_version_integer h = Ok (M * 1000 + value minor * 10 + p)
   /\ PyStr.len (PyStr.str (M * 1000 + value minor * 10 + p)) = 4)
  /\ (M = 0 ->
      get_tf_version_integer h
      = Raise (ValueError_version_flag (PyStr.str (value minor * 10 + p)))
      /\ PyStr.len (PyStr.str (value minor * 10 + p)) < 4).
Proof.
  intros HM Hd Hl Hp Hv.
  rewrite (get_tf_version_integer_ext h
             (Sample.of_version (version_text M minor p))) by exact Hv.
  split.
  - intros H1.
    pose proof (encodes_spec M minor p ltac:(lia) Hd Hl Hp) as E.
    unfold encodes in E.
    destruct (get_tf_version_integer _) as [n|e]; [|discriminate E].
    apply andb_true_iff in E as [En El].
    apply Z.eqb_eq in En, El. subst n. split; [reflexivity | exact El].
  - intros ->.
    pose proof (rejects_zero_spec minor p Hd Hl Hp) as E.
    unfold rejects_zero in E.
    destruct (get_tf_version_integer _) as [n|e]; [discriminate E|].
    destruct e; try discriminate E.
    apply andb_true_iff in E as [Et El].
    apply String.eqb_eq in Et. apply Z.ltb_lt in El. subst. now split.
Qed.

(** The boundary case of C1, ["2.99.1"], which gives 2991, of four digits,
    and the version ["0.12.1"], which is refused. *)
Lemma version_integer_encoding_2_99_1 :
  (get_tf_version_integer (Sample.of_version "2.99.1") = Ok 2991
   /\ PyStr.len (PyStr.str 2991) = 4)
  /\ (get_tf_version_integer (Sample.of_version "0.12.1")
      = Raise (ValueError_version_flag "121")
      /\ PyStr.len (PyStr.str 121) < 4).
Proof.
  split.
  - apply (proj1 (version_integer_encoding (Sample.of_version "2.99.1")
                    2 [9; 9] 1
                    ltac:(lia)
                    ltac:(repeat constructor; unfold is_digit; lia)
                    ltac:(simpl; lia)
                    ltac:(unfold is_digit; lia)
                    eq_refl)).
    lia.
  - apply (proj2 (version_integer_encoding (Sample.of_version "0.12.1")
                    0 [1; 2] 1
                    ltac:(lia)
                    ltac:(repeat constructor; unfold is_digit; lia)
                    ltac:(simpl; lia)
                    ltac:(unfold is_digit; lia)
                    eq_refl)).
    reflexivity.
Defined.

(** C1 as stated fails for the major digit 0: ["0.12.1"] has a major part of
    one digit, a minor part of two digits and a patch part of one digit, and
    the function raises the length error instead of returning 121. *)
Lemma version_integer_major_zero :
  tf_version (Sample.of_version "0.12.1") = Some (version_text 0 [1; 2] 1)
  /\ get_tf_version_integer (Sample.of_version "0.12.1")
     = Raise (ValueError_version_flag "121")
  /\ get_tf_version_integer (Sample.of_version "0.12.1")
     <> Ok (0 * 1000 + value [1; 2] * 10 + 1).
Proof.
  split; [reflexivity|]. split; [reflexivity|]. discriminate.
Qed.

(** C7, as the code has it: [get_tf_version_integer] raises the
    [ValueError] of line 161, which names the version string, exactly for
    the version strings that are not made of three dot-separated parts with
    a major part of 1 character, a minor part of at most 2 characters and a
    patch part of 1 character.  The characters are counted, not looked at:
    a part of the right length that is no number fails later, in [int()],
    and a minor part with a sign is accepted. *)
Theorem malformed_version_rejected (h : host) (version : string) :
  tf_version h = Some version ->
  (~ three_components version ->
   get_tf_version_integer h = Raise (ValueError_wrong_version version))
  /\ (three_components version ->
      forall v, get_tf_version_integer h <> Raise (ValueError_wrong_version v)).
Proof.
  intros Hv. unfold get_tf_version_integer. rewrite Hv. split.
  - intros Hn.
    destruct (split_version version) as [[[major minor] patch]|] eqn:E;
      [|reflexivity].
    exfalso. apply Hn. apply split_version_three_components.
    rewrite E. discriminate.
  - intros Ht v H. apply split_version_three_components in Ht.
    destruct (split_version version) as [[[major minor] patch]|];
      [|now apply Ht].
    apply rbind_raise in H as [H|(ma & _ & H)];
      [apply py_int_raise in H; discriminate H|].
    apply rbind_raise in H as [H|(mi & _ & H)];
      [apply py_int_raise in H; discriminate H|].
    apply rbind_raise in H as [H|(pa & _ & H)];
      [apply py_int_raise in H; discriminate H|].
    cbv zeta in H. destruct (negb _); [discriminate H|].
    apply py_int_raise in H. discriminate H.
Qed.

(** The two versions that C7 names: ["2.0"] lacks the patch part and
    ["10.0.0"] has a major part of length 2. *)
Lemma malformed_version_rejected_examples :
  get_tf_version_integer (Sample.of_version "2.0")
  = Raise (ValueError_wrong_version "2.0")
  /\ get_tf_version_integer (Sample.of_version "10.0.0")
     = Raise (ValueError_wrong_version "10.0.0").
Proof.
  split.
  - apply (proj1 (malformed_version_rejected (Sample.of_version "2.0") "2.0"
                    eq_refl)).
    intros H. apply split_version_three_components in H.
    apply H. reflexivity.
  - apply (proj1 (malformed_version_rejected (Sample.of_version "10.0.0")
                    "10.0.0" eq_refl)).
    intros H. apply split_version_three_components in H.
    apply H. reflexivity.
Defined.

(** C7 as stated fails for parts of the right length that are not made of
    digits.  The minor part of ["2.-1.1"] has two characters, the first of
    which is a sign: the function raises nothing and returns 1991.  The
    parts of ["a.b.c"] are no digits: the function raises the error of
    [int()], not the one that names the version string. *)
Lemma version_parts_not_digits :
  (PyStr.split "." "2.-1.1" = ["2"; "-1"; "1"]
   /\ all_digits "-1" = false
   /\ get_tf_version_integer (Sample.of_version "2.-1.1") = Ok 1991)
  /\ (PyStr.split "." "a.b.c" = ["a"; "b"; "c"]
      /\ all_digits "a" = false
      /\ get_tf_version_integer (Sample.of_version "a.b.c")
         = Raise (ValueError_int_literal "a")
      /\ get_tf_version_integer (Sample.of_version "a.b.c")
         <> Raise (ValueError_wrong_version "a.b.c")).
Proof.
  repeat split; try reflexivity. discriminate.
Qed.

(** The parts of a well-shaped version string still have to be numbers:
    ["a.b.c"] passes the three assertions and fails in [int()]. *)
Example version_not_numeric :
  three_components "a.b.c"
  /\ get_tf_version_integer (Sample.of_version "a.b.c")
     = Raise (ValueError_int_literal "a").
Proof.
  split; [|reflexivity].
  apply split_version_three_components. discriminate.
Qed.

(** ** The required Bazel version *)

Lemma lt_false_ge (a b : string) : PyStr.lt a b = false -> PyStr.ge a b = true.
Proof.
  unfold PyStr.lt, PyStr.ge, String.ltb, String.leb.
  rewrite (String.compare_antisym b a).
  destruct (String.compare a b); simpl; congruence.
Qed.

(** C2: the required Bazel version is ["4.1.0"] on macOS arm64 whatever the
    TensorFlow version; otherwise ["0.26.1"] when the version string is
    below ["2.0.0"] in the order of strings; otherwise ["4.2.1"].  The
    function never reaches its last branch, the one that raises. *)
Theorem valid_bazel_version_table (h : host) (tf_version : string) :
  (is_macos h && is_arm64 h = true ->
   _VALID_BAZEL_VERSION h tf_version = Ok "4.1.0")
  /\ (is_macos h && is_arm64 h = false -> PyStr.lt tf_version "2.0.0" = true ->
      _VALID_BAZEL_VERSION h tf_version = Ok "0.26.1")
  /\ (is_macos h && is_arm64 h = false -> PyStr.lt tf_version "2.0.0" = false ->
      _VALID_BAZEL_VERSION h tf_version = Ok "4.2.1")
  /\ (forall e, _VALID_BAZEL_VERSION h tf_version <> Raise e).
Proof.
  unfold _VALID_BAZEL_VERSION.
  destruct (is_macos h && is_arm64 h).
  - repeat split; try reflexivity; discriminate.
  - destruct (PyStr.lt tf_version "2.0.0") eqn:E.
    + repeat split; try reflexivity; discriminate.
    + rewrite (lt_false_ge _ _ E). repeat split; try reflexivity; discriminate.
Qed.

(** The three rows that C2 names. *)
Lemma valid_bazel_version_rows :
  _VALID_BAZEL_VERSION Sample.macos_arm64 "2.5.1" = Ok "4.1.0"
  /\ _VALID_BAZEL_VERSION Sample.linux_old_tf "1.15.2" = Ok "0.26.1"
  /\ _VALID_BAZEL_VERSION Sample.linux "2.5.1" = Ok "4.2.1".
Proof.
  split; [|split].
  - apply (proj1 (valid_bazel_version_table Sample.macos_arm64 "2.5.1")).
    reflexivity.
  - apply (proj1 (proj2 (valid_bazel_version_table Sample.linux_old_tf "1.15.2")));
      reflexivity.
  - apply (proj1 (proj2 (proj2
             (valid_bazel_version_table Sample.linux "2.5.1")))); reflexivity.
Defined.

(** The order is the one of strings, not of versions: ["10.0.0"] sorts
    below ["2.0.0"]. *)
Example valid_bazel_version_lexicographic :
  _VALID_BAZEL_VERSION Sample.linux "10.0.0" = Ok "0.26.1".
Proof. reflexivity. Qed.

(** ** What a run leaves behind *)

Lemma add_written (ls : list string) (w : world) :
  written (add ls w) = (written w ++ ls)%list.
Proof.
  revert w. induction ls as [|l r IH]; intros w; simpl.
  - now rewrite app_nil_r.
  - rewrite IH. simpl. now rewrite <- app_assoc.
Qed.

Lemma add_bazelrc (ls : list string) (w : world) :
  bazelrc (add ls w)
  = match ls with
    | [] => bazelrc w
    | _ => Some (file_text w ++ unlines ls)
    end.
Proof.
  revert w. induction ls as [|l r IH]; intros w; [reflexivity|].
  simpl add. rewrite IH. destruct r as [|l' r'].
  - reflexivity.
  - f_equal.
    change (unlines (l :: l' :: r'))
      with (l ++ newline ++ unlines (l' :: r')).
    generalize (unlines (l' :: r')). intros u.
    unfold file_text at 1. cbn [bazelrc].
    now rewrite !append_assoc.
Qed.

Lemma add_removed_bazelrc (ls : list string) (w : world) :
  bazelrc (add ls (removed w))
  = match ls with
    | [] => None
    | _ => Some (unlines ls)
    end.
Proof.
  rewrite add_bazelrc. destruct ls; reflexivity.
Qed.

Lemma add_app (a b : list string) (w : world) :
  add (a ++ b)%list w = add b (add a w).
Proof.
  revert w. induction a as [|l a IH]; intros w; [reflexivity|].
  simpl. apply IH.
Qed.

Lemma emits_ret {A : Type} (a : A) : emits (ret a) (Ok a) [].
Proof. intros w. reflexivity. Qed.

Lemma emits_lift_raise {A B : Type} (r : result A) (k : A -> M B) (e : exn) :
  r = Raise e -> emits (bind (lift r) k) (Raise e) [].
Proof. intros -> w. reflexivity. Qed.

Lemma emits_lift_ok {A B : Type} (r : result A) (k : A -> M B) (a : A)
      (r' : result B) (ls : list string) :
  r = Ok a -> emits (k a) r' ls -> emits (bind (lift r) k) r' ls.
Proof. intros -> H w. unfold bind, lift. apply H. Qed.

Lemma when_lift (b : bool) (r : result unit) :
  when b (lift r) = lift (if b then r else Ok tt).
Proof. destruct b; reflexivity. Qed.

Lemma emits_write {B : Type} (l : string) (k : unit -> M B)
      (r : result B) (ls : list string) :
  emits (k tt) r ls -> emits (bind (write l) k) r (l :: ls).
Proof. intros H w. unfold bind. cbn [write]. apply H. Qed.

Lemma emits_write_action_env {B : Type} (var value : string) (k : unit -> M B)
      (r : result B) (ls : list string) :
  emits (k tt) r ls ->
  emits (bind (write_action_env var value) k) r (action_env var value :: ls).
Proof. apply emits_write. Qed.

Lemma emits_write_last (l : string) : emits (write l) (Ok tt) [l].
Proof. intros w. reflexivity. Qed.

Lemma emits_seq {B : Type} (m : M unit) (k : unit -> M B) (r : result B)
      (ls ls' : list string) :
  emits m (Ok tt) ls -> emits (k tt) r ls' -> emits (bind m k) r (ls ++ ls')%list.
Proof.
  intros Hm Hk w. unfold bind. rewrite Hm, add_app. apply Hk.
Qed.

Lemma configure_cuda_emits (h : host) :
  emits (configure_cuda h) (Ok tt) (cuda_lines h).
Proof.
  unfold configure_cuda, cuda_lines.
  repeat apply emits_write_action_env. repeat apply emits_write.
  apply emits_write_last.
Qed.

Lemma configure_rocm_emits (h : host) :
  emits (configure_rocm h) (Ok tt) (rocm_lines h).
Proof.
  unfold configure_rocm, rocm_lines.
  repeat apply emits_write_action_env. repeat apply emits_write.
  apply emits_write_last.
Qed.

Lemma gpu_emits (h : host) :
  emits (if String.eqb (getenv_default h "TF_NEED_CUDA" "0") "1"
         then configure_cuda h
         else if String.eqb (getenv_default h "TF_NEED_ROCM" "0") "1"
              then configure_rocm h
              else ret tt)
        (Ok tt) (gpu_lines h).
Proof.
  unfold gpu_lines, need_cuda, need_rocm.
  destruct (String.eqb (getenv_default h "TF_NEED_CUDA" "0") "1");
    [apply configure_cuda_emits|].
  destruct (String.eqb (getenv_default h "TF_NEED_ROCM" "0") "1");
    [apply configure_rocm_emits | apply emits_ret].
Qed.

Lemma windows_emits (h : host) :
  emits (when (is_windows h)
           (write "build --config=windows" ;;
            write "build:windows --enable_runfiles" ;;
            write "build:windows --copt=/experimental:preprocessor" ;;
            write "build:windows --host_copt=/experimental:preprocessor" ;;
            write "build:windows --copt=/arch=AVX")%run)
        (Ok tt) (windows_lines h).
Proof.
  unfold windows_lines. destruct (is_windows h); cbn [when].
  - repeat apply emits_write. apply emits_write_last.
  - apply emits_ret.
Qed.

Lemma avx_emits (h : host) :
  emits (when (is_macos h || is_linux h)
           (when (negb (is_arm64 h)) (write "build --copt=-mavx")))
        (Ok tt) (avx_lines h).
Proof.
  unfold avx_lines.
  destruct (is_macos h || is_linux h), (is_arm64 h); cbn [when negb andb];
    solve [apply emits_ret | apply emits_write_last].
Qed.

Lemma bind_remove_bazelrc {B : Type} (k : unit -> M B) (w : world) :
  bind remove_bazelrc k w = k tt (removed w).
Proof. reflexivity. Qed.

(** A run is the removal of the old file followed by the writing of the
    lines of [outcome], whatever the file held before. *)
Lemma run_outcome (h : host) (w : world) :
  create_build_configuration h w
  = (fst (outcome h), add (snd (outcome h)) (removed w)).
Proof.
  unfold create_build_configuration. rewrite bind_remove_bazelrc.
  generalize (removed w).
  match goal with
  | |- forall w0, ?m w0 = (?r, add ?ls w0) => change (emits m r ls)
  end.
  rewrite !when_lift. unfold outcome, validation.
  destruct (if is_linux h then check_bazel_version h else Ok tt)
    as [[]|e] eqn:E1; cbn [rbind fst snd];
    [eapply emits_lift_ok; [reflexivity|] | now apply emits_lift_raise].
  destruct (if is_macos h && is_arm64 h
            then check_bazel_version_for_macOS_arm64 h else Ok tt)
    as [[]|e] eqn:E2; cbn [rbind fst snd];
    [eapply emits_lift_ok; [reflexivity|] | now apply emits_lift_raise].
  destruct (extract_tf_header h) as [[]|e] eqn:E3; cbn [fst snd];
    [eapply emits_lift_ok; [reflexivity|] | now apply emits_lift_raise].
  destruct (get_tf_header_dir h) as [hdr|e] eqn:E4; cbn [fst snd];
    [eapply emits_lift_ok; [reflexivity|] | now apply emits_lift_raise].
  destruct (get_tf_shared_lib_dir h) as [dir|e] eqn:E5; cbn [fst snd];
    [|apply emits_write_action_env; now apply emits_lift_raise].
  destruct (get_shared_lib_name h) as [name|e] eqn:E6; cbn [fst snd];
    [|apply emits_write_action_env; eapply emits_lift_ok; [reflexivity|];
      apply emits_write_action_env; now apply emits_lift_raise].
  destruct (get_tf_version_integer h) as [n|e] eqn:E7; cbn [fst snd].
  - unfold config_lines, tf_lines, strategy_lines. cbn [app].
    apply emits_write_action_env; eapply emits_lift_ok; [reflexivity|].
    apply emits_write_action_env; eapply emits_lift_ok; [reflexivity|].
    do 2 apply emits_write_action_env. eapply emits_lift_ok; [reflexivity|].
    do 2 apply emits_write_action_env. do 3 apply emits_write.
    apply emits_seq; [apply windows_emits|].
    apply emits_seq; [apply avx_emits|].
    apply gpu_emits.
  - unfold tf_lines. cbn [firstn].
    apply emits_write_action_env; eapply emits_lift_ok; [reflexivity|].
    apply emits_write_action_env; eapply emits_lift_ok; [reflexivity|].
    do 2 apply emits_write_action_env. now apply emits_lift_raise.
Qed.

Lemma run_result (h : host) (file : option string) :
  fst (create_build_configuration h (start file)) = fst (outcome h).
Proof. now rewrite run_outcome. Qed.

Lemma run_written (h : host) (file : option string) :
  written (snd (create_build_configuration h (start file))) = snd (outcome h).
Proof. rewrite run_outcome. cbn [snd]. now rewrite add_written. Qed.

Lemma run_bazelrc (h : host) (file : option string) :
  bazelrc (snd (create_build_configuration h (start file)))
  = match snd (outcome h) with
    | [] => None
    | _ => Some (unlines (snd (outcome h)))
    end.
Proof. rewrite run_outcome. cbn [snd]. now rewrite add_removed_bazelrc. Qed.

(** The file of a run holds the lines written in the run, each followed by
    a newline, and nothing of what it held before. *)
Lemma run_file_is_written (h : host) (file : option string) :
  let w := snd (create_build_configuration h (start file)) in
  bazelrc w = match written w with
              | [] => None
              | _ => Some (unlines (written w))
              end.
Proof. cbv zeta. now rewrite run_written, run_bazelrc. Qed.

(** *** The lines of the file *)

(** Splitting goes through a separator: the pieces of [a + sep + b] are the
    pieces of [a] followed by the pieces of [b]. *)
Lemma split_append_sep (sep : ascii) (a b : string) :
  PyStr.split sep (a ++ String sep b)
  = (PyStr.split sep a ++ PyStr.split sep b)%list.
Proof.
  induction a as [|c a IH]; simpl.
  - now rewrite Ascii.eqb_refl.
  - destruct (Ascii.eqb c sep); rewrite IH; [reflexivity|].
    pose proof (split_not_nil sep a) as Hn.
    destruct (PyStr.split sep a) as [|x xs]; [contradiction | reflexivity].
Qed.

Lemma split_unlines_pieces (ls : list string) :
  PyStr.split (ascii_of_N 10) (unlines ls)
  = (flat_map (PyStr.split (ascii_of_N 10)) ls ++ [EmptyString])%list.
Proof.
  induction ls as [|l ls IH]; [reflexivity|].
  change (unlines (l :: ls)) with (l ++ String (ascii_of_N 10) (unlines ls)).
  rewrite split_append_sep, IH. cbn [flat_map]. now rewrite app_assoc.
Qed.

(** The lines of the file of a run are the pieces of the strings handed to
    [write], in order: one line for a string without a newline, several for
    a string with newlines. *)
Lemma run_file_lines (h : host) (file : option string) :
  file_lines (snd (create_build_configuration h (start file)))
  = flat_map (PyStr.split (ascii_of_N 10))
             (written (snd (create_build_configuration h (start file)))).
Proof.
  unfold file_lines. rewrite run_bazelrc, run_written.
  destruct (snd (outcome h)) as [|l ls] eqn:E; [reflexivity|].
  rewrite split_unlines_pieces. apply removelast_last.
Qed.

Lemma flat_map_split_one_line (ls : list string) :
  Forall one_line ls -> flat_map (PyStr.split (ascii_of_N 10)) ls = ls.
Proof.
  induction 1 as [|l ls Hl _ IH]; [reflexivity|].
  cbn [flat_map]. rewrite (split_no_sep _ l Hl), IH. reflexivity.
Qed.

(** A string without a newline that was handed to [write] is a line of the
    file. *)
Lemma written_in_file_lines (h : host) (file : option string) (l : string) :
  one_line l ->
  In l (written (snd (create_build_configuration h (start file)))) ->
  In l (file_lines (snd (create_build_configuration h (start file)))).
Proof.
  intros Hl Hin. rewrite run_file_lines. apply in_flat_map.
  exists l. split; [exact Hin|]. rewrite (split_no_sep _ l Hl). now left.
Qed.

Lemma string_of_uint_one_line (d : Decimal.uint) :
  one_line (NilEmpty.string_of_uint d).
Proof. unfold one_line. induction d; simpl; auto. Qed.

(** The decimal text of a number holds no newline. *)
Lemma str_one_line (n : Z) : one_line (PyStr.str n).
Proof.
  unfold PyStr.str, NilZero.string_of_int, NilZero.string_of_uint.
  destruct (Z.to_int n) as [d|d].
  - destruct d; try reflexivity; apply string_of_uint_one_line.
  - unfold one_line. cbn [has_char].
    destruct d; try reflexivity; apply string_of_uint_one_line.
Qed.

Lemma action_env_one_line (var value : string) :
  one_line var -> one_line value -> one_line (action_env var value).
Proof.
  unfold one_line, action_env. intros Hv Hx.
  rewrite !has_char_append, Hv, Hx. reflexivity.
Qed.

Lemma getenv_default_one_line (h : host) (var default : string) :
  plain_host h -> one_line default -> one_line (getenv_default h var default).
Proof.
  intros (_ & _ & _ & He) Hd. unfold getenv_default.
  destruct (getenv h var) as [v|] eqn:E; [exact (He var v E) | exact Hd].
Qed.

Ltac one_line_each :=
  repeat (apply Forall_cons;
          [first [ reflexivity
                 | apply action_env_one_line;
                   [reflexivity
                   | first [ assumption
                           | apply str_one_line
                           | apply getenv_default_one_line;
                             [assumption | reflexivity]
                           | reflexivity ] ] ]|]);
  apply Forall_nil.

(** On a plain host no string handed to [write] holds a newline. *)
Lemma outcome_one_line (h : host) :
  plain_host h -> Forall one_line (snd (outcome h)).
Proof.
  intros P. pose proof P as (Hh & Hd & Hn & He). unfold outcome.
  destruct (validation h); [|apply Forall_nil].
  destruct (get_tf_header_dir h) as [hdr|] eqn:E1; [|apply Forall_nil].
  pose proof (Hh hdr eq_refl) as L1.
  destruct (get_tf_shared_lib_dir h) as [dir|] eqn:E2; [|one_line_each].
  pose proof (Hd dir eq_refl) as L2.
  destruct (get_shared_lib_name h) as [name|] eqn:E3; [|one_line_each].
  pose proof (Hn name eq_refl) as L3.
  destruct (get_tf_version_integer h) as [n|]; cbn [snd].
  - unfold config_lines.
    apply Forall_app; split; [unfold tf_lines; one_line_each|].
    apply Forall_app; split; [unfold strategy_lines; one_line_each|].
    apply Forall_app; split;
      [unfold windows_lines; destruct (is_windows h); one_line_each|].
    apply Forall_app; split;
      [unfold avx_lines; destruct (_ && _); one_line_each|].
    unfold gpu_lines. destruct (need_cuda h);
      [unfold cuda_lines; one_line_each|].
    destruct (need_rocm h); [unfold rocm_lines; one_line_each|].
    apply Forall_nil.
  - unfold tf_lines. cbn [firstn]. one_line_each.
Qed.

(** On a plain host the lines of the file are the strings handed to
    [write]. *)
Lemma plain_file_lines (h : host) (file : option string) :
  plain_host h ->
  file_lines (snd (create_build_configuration h (start file)))
  = written (snd (create_build_configuration h (start file))).
Proof.
  intros P. rewrite run_file_lines. apply flat_map_split_one_line.
  rewrite run_written. now apply outcome_one_line.
Qed.

(** The sample hosts are plain. *)
Ltac plain_sample :=
  repeat split;
  [ intros ? H; vm_compute in H; injection H as <-; reflexivity
  | intros ? H; vm_compute in H; injection H as <-; reflexivity
  | intros ? H; vm_compute in H; injection H as <-; reflexivity
  | intros var value H; cbn in H; unfold Sample.no_env, Sample.env1,
      Sample.env2 in H;
    repeat match type of H with
      | (if ?b then _ else _) = Some _ => destruct b
      end;
    try discriminate H; injection H as <-; reflexivity ].



Lemma plain_windows : plain_host Sample.windows.
Proof. plain_sample. Qed.

(** *** Which exception comes from where *)

(** Takes a failing sequence of [rbind]s apart, down to the call that
    raised. *)
Ltac raised H :=
  repeat match type of H with
    | rbind _ _ = Raise _ =>
        apply rbind_raise in H as [H|(? & _ & H)]
    | (if ?b then _ else _) = Raise _ => destruct b
    | (let '(_, _) := ?p in _) = Raise _ => destruct p
    end;
  try discriminate H;
  try (apply index_raise in H; subst; reflexivity);
  try (apply py_int_raise in H; subst; reflexivity);
  try (apply tf_version_attr_raise in H; subst; reflexivity);
  try (apply is_raspi_arm_raise in H; subst; reflexivity);
  try (injection H as <-; reflexivity).

Lemma get_tf_version_integer_no_mismatch (h : host) (e : exn) :
  get_tf_version_integer h = Raise e -> bazel_mismatch e = false.
Proof.
  unfold get_tf_version_integer. intros H.
  destruct (tf_version h) as [version|]; [|injection H as <-; reflexivity].
  destruct (split_version version) as [[[major minor] patch]|];
    [|injection H as <-; reflexivity].
  raised H.
Qed.

Lemma get_tf_header_dir_no_mismatch (h : host) (e : exn) :
  get_tf_header_dir h = Raise e -> bazel_mismatch e = false.
Proof.
  unfold get_tf_header_dir. intros H. raised H.
  now apply get_tf_version_integer_no_mismatch in H.
Qed.

Lemma extract_tf_header_no_mismatch (h : host) (e : exn) :
  extract_tf_header h = Raise e -> bazel_mismatch e = false.
Proof.
  unfold extract_tf_header. intros H. raised H.
  - now apply get_tf_header_dir_no_mismatch in H.
  - now apply get_tf_version_integer_no_mismatch in H.
Qed.

Lemma get_tf_shared_lib_dir_no_mismatch (h : host) (e : exn) :
  get_tf_shared_lib_dir h = Raise e -> bazel_mismatch e = false.
Proof.
  unfold get_tf_shared_lib_dir. intros H.
  destruct (is_windows h); raised H.
Qed.

Lemma get_shared_lib_name_no_mismatch (h : host) (e : exn) :
  get_shared_lib_name h = Raise e -> bazel_mismatch e = false.
Proof.
  unfold get_shared_lib_name. cbv zeta. intros H.
  destruct (is_macos h); [discriminate H|].
  destruct (is_windows h); [discriminate H|]. raised H.
Qed.

(** A run that passes the checks of [validation] does not end with a
    complaint about Bazel. *)
Lemma outcome_no_mismatch (h : host) (e : exn) :
  validation h = Ok tt -> fst (outcome h) = Raise e -> bazel_mismatch e = false.
Proof.
  unfold outcome. intros -> H.
  destruct (get_tf_header_dir h) eqn:E1; cbn [fst] in H;
    [|injection H as <-; now apply get_tf_header_dir_no_mismatch in E1].
  destruct (get_tf_shared_lib_dir h) eqn:E2; cbn [fst] in H;
    [|injection H as <-; now apply get_tf_shared_lib_dir_no_mismatch in E2].
  destruct (get_shared_lib_name h) eqn:E3; cbn [fst] in H;
    [|injection H as <-; now apply get_shared_lib_name_no_mismatch in E3].
  destruct (get_tf_version_integer h) eqn:E4; cbn [fst] in H;
    [discriminate H|].
  injection H as <-. now apply get_tf_version_integer_no_mismatch in E4.
Qed.

(** ** The check of the installed Bazel *)

Lemma linux_not_macos (h : host) : is_linux h = true -> is_macos h = false.
Proof.
  unfold is_linux, is_macos. intros H. apply String.eqb_eq in H.
  now rewrite H.
Qed.

Lemma macos_not_linux (h : host) : is_macos h = true -> is_linux h = false.
Proof.
  unfold is_linux, is_macos. intros H. apply String.eqb_eq in H.
  now rewrite H.
Qed.

Lemma windows_not_unix (h : host) :
  is_windows h = true -> is_macos h = false /\ is_linux h = false.
Proof.
  unfold is_linux, is_macos, is_windows. intros H. apply String.eqb_eq in H.
  now rewrite H.
Qed.

Lemma outcome_raise (h : host) (e : exn) :
  fst (outcome h) = Raise e ->
  validation h = Raise e \/ (validation h = Ok tt /\ bazel_mismatch e = false).
Proof.
  intros H. destruct (validation h) as [[]|e'] eqn:V.
  - right. split; [reflexivity|]. now apply (outcome_no_mismatch h e V).
  - left. unfold outcome in H. rewrite V in H. cbn [fst] in H.
    now injection H as ->.
Qed.

Lemma outcome_validation_raise (h : host) (e : exn) :
  validation h = Raise e -> outcome h = (Raise e, []).
Proof. unfold outcome. now intros ->. Qed.

(** Off Linux and off macOS arm64 the output of Bazel is not looked at. *)
Lemma outcome_without_bazel (h : host) (label : string) :
  is_linux h = false -> is_macos h && is_arm64 h = false ->
  outcome (with_bazel_label h label) = outcome h.
Proof.
  intros Hl Hm.
  assert (V : validation (with_bazel_label h label) = validation h).
  { unfold validation.
    change (is_linux (with_bazel_label h label)) with (is_linux h).
    change (is_macos (with_bazel_label h label)) with (is_macos h).
    change (is_arm64 (with_bazel_label h label)) with (is_arm64 h).
    rewrite Hl, Hm. reflexivity. }
  unfold outcome. rewrite V. reflexivity.
Qed.

(** C3, as the code has it.  On a Linux host, with [installed] the version
    token of the installed Bazel and [valid] the required version, a run
    with [installed <> valid] raises the mismatch error of
    [check_bazel_version] and leaves no file.  On a macOS arm64 host a run
    ends with a mismatch error exactly when [installed < valid] in the
    order of strings, and then leaves no file.  On every other host
    (Windows, macOS on another machine) Bazel is not checked: no run ends
    with a mismatch error, and the run is the same whatever
    [bazel version] prints, nothing included. *)
Theorem bazel_check_by_host (h : host) (file : option string) :
  (forall installed valid,
      _get_installed_and_valid_bazel_version h = Ok (installed, valid) ->
      (is_linux h = true -> installed <> valid ->
       create_build_configuration h (start file)
       = (Raise (ValueError_bazel_version installed valid), start None))
      /\ (is_macos h && is_arm64 h = true ->
          ((exists e, fst (create_build_configuration h (start file)) = Raise e
                      /\ bazel_mismatch e = true)
           <-> PyStr.lt installed valid = true)
          /\ (PyStr.lt installed valid = true ->
              create_build_configuration h (start file)
              = (Raise (ValueError_bazel_macos_arm64 installed valid),
                 start None))))
  /\ (is_linux h = false -> is_macos h && is_arm64 h = false ->
      (forall e, fst (create_build_configuration h (start file)) = Raise e ->
                 bazel_mismatch e = false)
      /\ (forall label,
             create_build_configuration (with_bazel_label h label) (start file)
             = create_build_configuration h (start file))).
Proof.
  split.
  - intros installed valid Hiv. split.
    + intros Hl Hne. rewrite run_outcome.
      assert (V : validation h
                  = Raise (ValueError_bazel_version installed valid)).
      { unfold validation, check_bazel_version. rewrite Hl, Hiv. cbn [rbind].
        apply String.eqb_neq in Hne. now rewrite Hne. }
      now rewrite (outcome_validation_raise h _ V).
    + intros Hm.
      assert (Hl : is_linux h = false).
      { apply andb_true_iff in Hm as [Hm _]. now apply macos_not_linux. }
      assert (V : validation h
                  = if PyStr.lt installed valid
                    then Raise (ValueError_bazel_macos_arm64 installed valid)
                    else extract_tf_header h).
      { unfold validation, check_bazel_version_for_macOS_arm64.
        rewrite Hl, Hm, Hiv. cbn [rbind].
        now destruct (PyStr.lt installed valid). }
      split; [split|].
      * intros (e & He & Hb). rewrite run_result in He.
        destruct (PyStr.lt installed valid); [reflexivity|].
        apply outcome_raise in He as [He|[_ He]]; [|congruence].
        rewrite V in He. apply extract_tf_header_no_mismatch in He. congruence.
      * intros Hlt. rewrite Hlt in V.
        exists (ValueError_bazel_macos_arm64 installed valid).
        rewrite run_result, (outcome_validation_raise h _ V). now split.
      * intros Hlt. rewrite Hlt in V.
        now rewrite run_outcome, (outcome_validation_raise h _ V).
  - intros Hl Hm. split.
    + intros e He. rewrite run_result in He.
      apply outcome_raise in He as [He|[_ He]]; [|exact He].
      unfold validation in He. rewrite Hl, Hm in He. cbn [rbind] in He.
      now apply extract_tf_header_no_mismatch in He.
    + intros label. rewrite !run_outcome.
      now rewrite (outcome_without_bazel h label Hl Hm).
Qed.

(** C3 on a Linux host with Bazel 5.0.0 where 4.2.1 is required, on a
    macOS arm64 host with Bazel 3.7.2 where 4.1.0 is required, where both
    runs raise and leave no file whatever the file held, and on a Windows
    host, where the run with Bazel 3.7.2 is the run without any Bazel. *)
Lemma bazel_check_by_host_examples :
  create_build_configuration Sample.linux_wrong_bazel (start (Some "stale"))
  = (Raise (ValueError_bazel_version "5.0.0" "4.2.1"), start None)
  /\ create_build_configuration Sample.macos_arm64_old_bazel
       (start (Some "stale"))
     = (Raise (ValueError_bazel_macos_arm64 "3.7.2" "4.1.0"), start None)
  /\ create_build_configuration
       (with_bazel_label Sample.windows_wrong_bazel EmptyString) (start None)
     = create_build_configuration Sample.windows_wrong_bazel (start None).
Proof.
  split; [|split].
  - apply (proj1 (proj1 (bazel_check_by_host Sample.linux_wrong_bazel
                           (Some "stale")) "5.0.0" "4.2.1" eq_refl)).
    + reflexivity.
    + discriminate.
  - apply (proj2 (proj2 (proj1 (bazel_check_by_host Sample.macos_arm64_old_bazel
                                  (Some "stale")) "3.7.2" "4.1.0" eq_refl)
                    eq_refl)).
    reflexivity.
  - apply (proj2 (proj2 (bazel_check_by_host Sample.windows_wrong_bazel None)
                    eq_refl eq_refl)).
Defined.

(** C3 as stated fails on a host that is neither Linux nor macOS arm64: on
    Windows, and on macOS x86_64, with Bazel 3.7.2 installed where 4.2.1 is
    required, the run succeeds and writes the file. *)
Lemma bazel_unchecked_off_linux :
  (is_macos Sample.windows_wrong_bazel && is_arm64 Sample.windows_wrong_bazel
   = false
   /\ _get_installed_and_valid_bazel_version Sample.windows_wrong_bazel
      = Ok ("3.7.2", "4.2.1")
   /\ "3.7.2" <> "4.2.1"
   /\ fst (create_build_configuration Sample.windows_wrong_bazel (start None))
      = Ok tt
   /\ bazelrc (snd (create_build_configuration Sample.windows_wrong_bazel
                      (start None))) <> None)
  /\ (is_macos Sample.macos_x86_wrong_bazel
      && is_arm64 Sample.macos_x86_wrong_bazel = false
      /\ _get_installed_and_valid_bazel_version Sample.macos_x86_wrong_bazel
         = Ok ("3.7.2", "4.2.1")
      /\ fst (create_build_configuration Sample.macos_x86_wrong_bazel
                (start None)) = Ok tt).
Proof.
  repeat split; try (vm_compute; reflexivity); discriminate.
Qed.

(** ** The shape of the lines *)


Lemma action_env_form (var value : string) :
  var <> EmptyString -> directive_form (action_env var value).
Proof. intros H. left. now exists var, value. Qed.

Lemma build_form (flag : string) :
  flag <> EmptyString -> directive_form ("build " ++ flag).
Proof. intros H. right. left. now exists flag. Qed.

Lemma build_config_form (config flag : string) :
  config <> EmptyString -> has_char " " config = false ->
  flag <> EmptyString -> directive_form ("build:" ++ config ++ " " ++ flag).
Proof. intros H1 H2 H3. right. right. now exists config, flag. Qed.


















(** ** Runs that succeed *)

Lemma validation_ok (h : host) :
  validation h = Ok tt ->
  exists hdr n, get_tf_header_dir h = Ok hdr /\ get_tf_version_integer h = Ok n.
Proof.
  unfold validation. intros H.
  apply rbind_ok in H as (_ & _ & H). apply rbind_ok in H as (_ & _ & H).
  unfold extract_tf_header in H.
  apply rbind_ok in H as (hdr & Hh & H). apply rbind_ok in H as (n & Hn & _).
  now exists hdr, n.
Qed.

Lemma outcome_ok (h : host) :
  fst (outcome h) = Ok tt ->
  exists hdr dir name n,
    validation h = Ok tt
    /\ get_tf_header_dir h = Ok hdr
    /\ get_tf_shared_lib_dir h = Ok dir
    /\ get_shared_lib_name h = Ok name
    /\ get_tf_version_integer h = Ok n
    /\ snd (outcome h) = config_lines h hdr dir name n.
Proof.
  unfold outcome. intros H.
  destruct (validation h) as [[]|]; [|discriminate H].
  destruct (get_tf_header_dir h) as [hdr|]; [|discriminate H].
  destruct (get_tf_shared_lib_dir h) as [dir|]; [|discriminate H].
  destruct (get_shared_lib_name h) as [name|]; [|discriminate H].
  destruct (get_tf_version_integer h) as [n|]; [|discriminate H].
  now exists hdr, dir, name, n.
Qed.

(** A run that succeeds has written the full sequence of lines, and the file
    holds exactly these lines. *)
Lemma run_ok (h : host) (file : option string) (w' : world) :
  create_build_configuration h (start file) = (Ok tt, w') ->
  exists hdr dir name n,
    validation h = Ok tt
    /\ get_tf_header_dir h = Ok hdr
    /\ get_tf_shared_lib_dir h = Ok dir
    /\ get_shared_lib_name h = Ok name
    /\ get_tf_version_integer h = Ok n
    /\ written w' = config_lines h hdr dir name n
    /\ bazelrc w' = Some (unlines (config_lines h hdr dir name n)).
Proof.
  intros H.
  pose proof (run_result h file) as Hr. pose proof (run_written h file) as Hw.
  pose proof (run_bazelrc h file) as Hb.
  rewrite H in Hr, Hw, Hb. cbn [fst snd] in Hr, Hw, Hb.
  destruct (outcome_ok h (eq_sym Hr)) as (hdr & dir & name & n & V & H1 & H2
                                          & H3 & H4 & Hl).
  exists hdr, dir, name, n. rewrite Hl in Hw, Hb.
  repeat split; try assumption.
Qed.

(** ** AVX *)

Lemma action_env_not_mavx (var value : string) :
  action_env var value <> "build --copt=-mavx".
Proof. unfold action_env. simpl. discriminate. Qed.

Ltac not_in_lines H :=
  simpl in H;
  repeat (destruct H as [H|H];
          [first [ discriminate H
                 | exfalso; exact (action_env_not_mavx _ _ H) ]|]);
  try contradiction.

Lemma run_ok_file_lines (h : host) (file : option string) (w' : world)
      (l : string) :
  create_build_configuration h (start file) = (Ok tt, w') ->
  one_line l -> In l (written w') -> In l (file_lines w').
Proof.
  intros H Hl Hin.
  pose proof (written_in_file_lines h file l Hl) as F.
  rewrite H in F. cbn [snd] in F. now apply F.
Qed.

Lemma run_ok_plain_file_lines (h : host) (file : option string) (w' : world) :
  create_build_configuration h (start file) = (Ok tt, w') ->
  plain_host h -> file_lines w' = written w'.
Proof.
  intros H P. pose proof (plain_file_lines h file P) as F.
  now rewrite H in F.
Qed.

(** C5, as the code has it: on a Windows host, whatever the machine, the
    file of a run that succeeds holds the line [build --config=windows] and
    the AVX directive of the [windows] configuration,
    [build:windows --copt=/arch=AVX].  The script does not write the AVX
    directive of the default configuration, [build --copt=-mavx], on
    Windows: that line is not among the strings handed to [write], and it
    is not a line of the file when no path of TensorFlow and no value of
    the environment holds a newline. *)
Theorem windows_avx (h : host) (file : option string) (w' : world) :
  is_windows h = true ->
  create_build_configuration h (start file) = (Ok tt, w') ->
  In "build --config=windows" (file_lines w')
  /\ In "build:windows --copt=/arch=AVX" (file_lines w')
  /\ ~ In "build --copt=-mavx" (written w')
  /\ (plain_host h -> ~ In "build --copt=-mavx" (file_lines w')).
Proof.
  intros Hw H.
  assert (N : ~ In "build --copt=-mavx" (written w')).
  { destruct (run_ok h file w' H) as (hdr & dir & name & n & _ & _ & _ & _ & _
                                      & -> & _).
    destruct (windows_not_unix h Hw) as [Hm Hl].
    unfold config_lines, windows_lines, avx_lines. rewrite Hw, Hm, Hl.
    cbn [orb andb]. intros Hin.
    apply in_app_or in Hin as [Hin|Hin];
      [unfold tf_lines in Hin; not_in_lines Hin|].
    apply in_app_or in Hin as [Hin|Hin]; [not_in_lines Hin|].
    apply in_app_or in Hin as [Hin|Hin]; [not_in_lines Hin|].
    apply in_app_or in Hin as [Hin|Hin]; [not_in_lines Hin|].
    unfold gpu_lines in Hin.
    destruct (need_cuda h); [unfold cuda_lines in Hin; not_in_lines Hin|].
    destruct (need_rocm h); [unfold rocm_lines in Hin; not_in_lines Hin|].
    contradiction. }
  assert (Y : In "build --config=windows" (written w')
              /\ In "build:windows --copt=/arch=AVX" (written w')).
  { destruct (run_ok h file w' H) as (hdr & dir & name & n & _ & _ & _ & _ & _
                                      & -> & _).
    unfold config_lines, windows_lines. rewrite Hw. split.
    - apply in_or_app. right. apply in_or_app. right. apply in_or_app. left.
      left. reflexivity.
    - apply in_or_app. right. apply in_or_app. right. apply in_or_app. left.
      do 4 right. left. reflexivity. }
  destruct Y as [Y1 Y2]. repeat split.
  - now apply (run_ok_file_lines h file w').
  - now apply (run_ok_file_lines h file w').
  - exact N.
  - intros P. now rewrite (run_ok_plain_file_lines h file w' H P).
Qed.

(** C5 on a Windows host with an AMD64 machine. *)
Lemma windows_avx_example :
  let w' := snd (create_build_configuration Sample.windows (start None)) in
  In "build --config=windows" (file_lines w')
  /\ In "build:windows --copt=/arch=AVX" (file_lines w')
  /\ ~ In "build --copt=-mavx" (file_lines w').
Proof.
  cbv zeta.
  destruct (windows_avx Sample.windows None
              (snd (create_build_configuration Sample.windows (start None)))
              eq_refl ltac:(vm_compute; reflexivity)) as (A & B & _ & D).
  split; [exact A|]. split; [exact B|]. exact (D plain_windows).
Defined.

(** C5 as stated fails: on a Windows host with an AMD64 machine the run
    succeeds, and of the lines of its file only the one of the [windows]
    configuration mentions AVX; no line of the default configuration does,
    and [build --copt=-mavx] is absent. *)
Lemma windows_no_default_avx :
  let w' := snd (create_build_configuration Sample.windows (start None)) in
  is_windows Sample.windows = true
  /\ is_arm64 Sample.windows = false
  /\ fst (create_build_configuration Sample.windows (start None)) = Ok tt
  /\ filter mentions_avx (file_lines w') = ["build:windows --copt=/arch=AVX"]
  /\ filter (fun l => PyStr.startswith "build " l && mentions_avx l)
            (file_lines w') = []
  /\ ~ In "build --copt=-mavx" (file_lines w').
Proof.
  cbv zeta. repeat split; try (vm_compute; reflexivity).
  vm_compute. intros H. repeat (destruct H as [H|H]; [discriminate H|]).
  exact H.
Qed.

(** On macOS and Linux the directive of the default configuration is
    written, unless the machine is arm64. *)
Lemma unix_avx (h : host) (file : option string) (w' : world) :
  is_macos h || is_linux h = true -> is_arm64 h = false ->
  create_build_configuration h (start file) = (Ok tt, w') ->
  In "build --copt=-mavx" (written w').
Proof.
  intros Hu Ha H.
  destruct (run_ok h file w' H) as (hdr & dir & name & n & _ & _ & _ & _ & _
                                    & -> & _).
  unfold config_lines, avx_lines. rewrite Hu, Ha. cbn [negb andb].
  apply in_or_app. right. apply in_or_app. right. apply in_or_app. right.
  apply in_or_app. left. left. reflexivity.
Qed.

(** ** The GPU blocks *)

Lemma block_configure_cuda (h : host) : block (configure_cuda h) = cuda_lines h.
Proof.
  unfold block. rewrite (configure_cuda_emits h (start None)). cbn [snd].
  now rewrite add_written.
Qed.

Lemma block_configure_rocm (h : host) : block (configure_rocm h) = rocm_lines h.
Proof.
  unfold block. rewrite (configure_rocm_emits h (start None)). cbn [snd].
  now rewrite add_written.
Qed.






(** Closes a goal [~ In l ls] for a line [l] that differs from every line
    of [ls] at a fixed position. *)
Ltac differs_from_all :=
  let H := fresh "H" in
  intros H; unfold action_env in H; simpl in H;
  repeat (destruct H as [H|H]; [discriminate H|]);
  exact H.












Lemma in_written_cases (h : host) (base : list string) (l : string) :
  Forall not_gpu base ->
  In l (base ++ gpu_lines h)%list ->
  not_gpu l \/ In l (gpu_lines h).
Proof.
  intros Hb Hin. apply in_app_or in Hin as [Hin|Hin]; [left | now right].
  now apply (proj1 (Forall_forall _ _) Hb).
Qed.






(** The runs of C10 in full: with [TF_NEED_CUDA=true] and [TF_NEED_ROCM=1]
    the lines end with the ROCm block; with both set to ["1"] they end with
    the CUDA block. *)
Example gpu_selection_runs :
  (exists base,
      written (snd (create_build_configuration Sample.linux_cuda_true
                      (start None)))
      = (base ++ block (configure_rocm Sample.linux_cuda_true))%list)
  /\ (exists base,
         written (snd (create_build_configuration Sample.linux_cuda_rocm
                         (start None)))
         = (base ++ block (configure_cuda Sample.linux_cuda_rocm))%list).
Proof.
  split.
  - exists (cpu_lines Sample.linux_cuda_true "/opt/tf/include" "/opt/tf"
                      "libtensorflow_framework.so.2" 2051).
    vm_compute. reflexivity.
  - exists (cpu_lines Sample.linux_cuda_rocm "/opt/tf/include" "/opt/tf"
                      "libtensorflow_framework.so.2" 2051).
    vm_compute. reflexivity.
Qed.

(** ** Failure and repetition *)

(** C8: a run ends in one of three ways.  It succeeds, and then the file
    holds the full sequence of lines.  Or one of the checks that precede the
    first write raises (the Bazel version, the unpacking of the headers),
    and then the file is missing, whatever it held before the run.  Or the
    library directory or the library name cannot be found, and then the
    file holds the lines written before that point and none after it. *)
Theorem run_all_or_abort (h : host) (file : option string) :
  let r := fst (create_build_configuration h (start file)) in
  let w' := snd (create_build_configuration h (start file)) in
  (r = Ok tt
   /\ exists hdr dir name n,
        written w' = config_lines h hdr dir name n
        /\ bazelrc w' = Some (unlines (config_lines h hdr dir name n)))
  \/ (exists e, r = Raise e /\ validation h = Raise e /\ w' = start None)
  \/ (exists e hdr,
        r = Raise e /\ validation h = Ok tt
        /\ get_tf_header_dir h = Ok hdr
        /\ get_tf_shared_lib_dir h = Raise e
        /\ written w' = [action_env "TF_HEADER_DIR" hdr]
        /\ bazelrc w' = Some (unlines (written w')))
  \/ (exists e hdr dir,
        r = Raise e /\ validation h = Ok tt
        /\ get_tf_header_dir h = Ok hdr
        /\ get_tf_shared_lib_dir h = Ok dir
        /\ get_shared_lib_name h = Raise e
        /\ written w' = [action_env "TF_HEADER_DIR" hdr;
                         action_env "TF_SHARED_LIBRARY_DIR" dir]
        /\ bazelrc w' = Some (unlines (written w'))).
Proof.
  cbv zeta. rewrite run_outcome. cbn [fst snd]. unfold outcome.
  destruct (validation h) as [[]|e] eqn:V.
  - destruct (validation_ok h V) as (hdr & n & -> & ->).
    destruct (get_tf_shared_lib_dir h) as [dir|e].
    + destruct (get_shared_lib_name h) as [name|e]; cbn [fst snd].
      * left. split; [reflexivity|]. exists hdr, dir, name, n.
        rewrite add_written, add_removed_bazelrc. split; [reflexivity|].
        reflexivity.
      * right. right. right. exists e, hdr, dir.
        rewrite add_written, add_removed_bazelrc. repeat split; reflexivity.
    + right. right. left. exists e, hdr. cbn [fst snd].
      rewrite add_written, add_removed_bazelrc. repeat split; reflexivity.
  - right. left. exists e. repeat split; reflexivity.
Qed.

(** A run whose validation raises leaves the file missing, not stale. *)
Lemma validation_failure_removes_file (h : host) (file : option string)
      (e : exn) :
  validation h = Raise e ->
  create_build_configuration h (start file) = (Raise e, start None).
Proof.
  intros V. now rewrite run_outcome, (outcome_validation_raise h e V).
Qed.

(** C9: a second run on the same host, started on the file that the first
    run left, ends with the same result, writes the same lines and leaves a
    file with the same content, character for character.  The second run
    makes its file anew: the file holds the lines which that run wrote,
    each followed by a newline, and nothing else (it is missing when the
    run wrote nothing), so that any file found at the start, the one of the
    first run or another one, is replaced and not kept or extended. *)
Theorem run_twice_same_file (h : host) (file : option string) :
  let first := create_build_configuration h (start file) in
  let second := create_build_configuration h (start (bazelrc (snd first))) in
  bazelrc (snd second) = bazelrc (snd first)
  /\ fst second = fst first
  /\ written (snd second) = written (snd first)
  /\ bazelrc (snd second)
     = match written (snd second) with
       | [] => None
       | _ => Some (unlines (written (snd second)))
       end
  /\ (forall stale,
         create_build_configuration h (start (Some stale))
         = create_build_configuration h (start None))
  /\ match fst second with
     | Ok _ =>
         exists hdr dir name n,
           bazelrc (snd second) = Some (unlines (config_lines h hdr dir name n))
     | Raise _ => True
     end.
Proof.
  cbv zeta. rewrite !run_bazelrc, !run_result, !run_written.
  do 4 (split; [reflexivity|]). split.
  - intros stale. now rewrite !run_outcome.
  - destruct (fst (outcome h)) eqn:E; [|exact I].
    destruct a.
    destruct (outcome_ok h E) as (hdr & dir & name & n & _ & _ & _ & _ & _ & Hl).
    exists hdr, dir, name, n. rewrite Hl. unfold config_lines, tf_lines.
    reflexivity.
Qed.

(** The file that a run leaves does not depend on the file it found. *)
Lemma run_forgets_old_file (h : host) (file file' : option string) :
  bazelrc (snd (create_build_configuration h (start file)))
  = bazelrc (snd (create_build_configuration h (start file'))).
Proof. now rewrite !run_bazelrc. Qed.

(** * Further properties *)

(** ** The range of the version integer *)

Lemma in_all_ascii (c : ascii) : In c all_ascii.
Proof.
  unfold all_ascii. apply in_map_iff. exists (nat_of_ascii c). split.
  - apply ascii_nat_embedding.
  - apply in_seq. pose proof (nat_ascii_bounded c). lia.
Qed.

Lemma int1_ok_all : forallb int1_ok all_ascii = true.
Proof. vm_compute. reflexivity. Qed.

Lemma int2_ok_all :
  forallb (fun a => forallb (int2_ok a) all_ascii) all_ascii = true.
Proof. vm_compute. reflexivity. Qed.

Lemma four_digits_ok_all : forallb four_digits_ok version_sums = true.
Proof. vm_compute. reflexivity. Qed.

Lemma int_length_1 (s : string) (v : Z) :
  String.length s = 1%nat -> PyStr.int s = Some v -> 0 <= v <= 9.
Proof.
  destruct s as [|c [|d r]]; try discriminate. intros _ H.
  pose proof (proj1 (forallb_forall _ _) int1_ok_all c (in_all_ascii c)) as E.
  unfold int1_ok in E. rewrite H in E. lia.
Qed.

Lemma int_length_2 (s : string) (v : Z) :
  (String.length s <= 2)%nat -> PyStr.int s = Some v -> -9 <= v <= 99.
Proof.
  destruct s as [|a [|b [|c r]]]; simpl; intros L H.
  - discriminate H.
  - pose proof (int_length_1 (String a EmptyString) v eq_refl H). lia.
  - pose proof (proj1 (forallb_forall _ _) int2_ok_all a (in_all_ascii a)) as E.
    pose proof (proj1 (forallb_forall _ _) E b (in_all_ascii b)) as E'.
    unfold int2_ok in E'. rewrite H in E'. lia.
  - lia.
Qed.

Lemma in_version_sums (m : Z) : -90 <= m <= 9999 -> In m version_sums.
Proof.
  intros H. unfold version_sums. apply in_map_iff.
  exists (Z.to_nat (m + 90)). split; [lia|]. apply in_seq.
  change (10 * 1009)%nat with (Z.to_nat 10090). lia.
Qed.

Lemma py_int_ok (s : string) (v : Z) : py_int s = Ok v -> PyStr.int s = Some v.
Proof. unfold py_int. destruct (PyStr.int s); congruence. Qed.

(** X1: whenever [get_tf_version_integer] returns, the number it returns
    lies between 1000 and 9999; no version string makes it return a number
    of another size. *)
Theorem version_integer_range (h : host) (n : Z) :
  get_tf_version_integer h = Ok n -> 1000 <= n <= 9999.
Proof.
  unfold get_tf_version_integer. intros H.
  destruct (tf_version h) as [version|]; [|discriminate H].
  destruct (split_version version) as [[[major minor] patch]|] eqn:E;
    [|discriminate H].
  apply split_version_some in E as (_ & _ & _ & _ & L1 & L2 & L3).
  apply rbind_ok in H as (ma & Hma & H). apply rbind_ok in H as (mi & Hmi & H).
  apply rbind_ok in H as (pa & Hpa & H). cbv zeta in H.
  apply py_int_ok in Hma, Hmi, Hpa.
  pose proof (int_length_1 _ _ L1 Hma) as Bma.
  pose proof (int_length_2 _ _ L2 Hmi) as Bmi.
  pose proof (int_length_1 _ _ L3 Hpa) as Bpa.
  set (m := ma * 1000 + mi * 10 + pa) in *.
  assert (Bm : -90 <= m <= 9999) by (unfold m; lia).
  pose proof (proj1 (forallb_forall _ _) four_digits_ok_all m
                (in_version_sums m Bm)) as F.
  unfold four_digits_ok in F.
  destruct (PyStr.len (PyStr.str m) =? 4); [|discriminate H].
  cbn [negb implb] in H, F. apply py_int_ok in H. rewrite H in F.
  apply andb_true_iff in F as [F1 F2].
  apply Z.leb_le in F1. apply Z.eqb_eq in F2. lia.
Qed.

(** X1 on the version 2.5.1. *)
Lemma version_integer_range_2_5_1 : 1000 <= 2051 <= 9999.
Proof.
  apply (version_integer_range (Sample.of_version "2.5.1") 2051).
  reflexivity.
Defined.

(** ** The two orders on versions *)

Lemma agrees_all :
  forallb (fun M =>
    forallb (fun minor =>
      forallb (fun p => agrees M minor p) (range 0 10)) minors) (range 1 9)
  = true.
Proof. vm_compute. reflexivity. Qed.

Lemma agrees_spec (M : Z) (minor : list Z) (p : Z) :
  1 <= M <= 9 -> Forall is_digit minor -> (1 <= List.length minor <= 2)%nat ->
  is_digit p -> agrees M minor p = true.
Proof.
  intros HM Hd Hl Hp.
  pose proof agrees_all as H.
  rewrite forallb_forall in H.
  specialize (H M (in_range 1 9 M ltac:(simpl; lia))).
  rewrite forallb_forall in H.
  specialize (H minor (in_minors minor Hd Hl)).
  rewrite forallb_forall in H.
  apply H. apply in_range. unfold is_digit in Hp. simpl. lia.
Qed.

(** X2: on a host that is not macOS arm64 and for a version [M.mm.p] written
    with digits, [M] from 1 to 9, the comparison of strings in
    [_VALID_BAZEL_VERSION] and the comparison of numbers on the version
    integer agree: Bazel 0.26.1 is required exactly when the version integer
    is below 2000, and Bazel 4.2.1 otherwise. *)
Theorem bazel_requirement_follows_integer (h : host) (M : Z) (minor : list Z)
        (p : Z) :
  1 <= M <= 9 ->
  Forall is_digit minor -> (1 <= List.length minor <= 2)%nat ->
  is_digit p ->
  is_macos h && is_arm64 h = false ->
  tf_version h = Some (version_text M minor p) ->
  exists n,
    get_tf_version_integer h = Ok n
    /\ _VALID_BAZEL_VERSION h (version_text M minor p)
       = Ok (if n <? 2000 then "0.26.1" else "4.2.1").
Proof.
  intros HM Hd Hl Hp Hmac Hv.
  exists (M * 1000 + value minor * 10 + p). split.
  - pose proof (encodes_spec M minor p HM Hd Hl Hp) as E.
    unfold encodes in E.
    rewrite (get_tf_version_integer_ext h
               (Sample.of_version (version_text M minor p))) by exact Hv.
    destruct (get_tf_version_integer _) as [n|e]; [|discriminate E].
    apply andb_true_iff in E as [En _]. apply Z.eqb_eq in En. now subst n.
  - pose proof (agrees_spec M minor p HM Hd Hl Hp) as A.
    unfold agrees in A. apply Bool.eqb_prop in A.
    unfold _VALID_BAZEL_VERSION. rewrite Hmac, <- A.
    destruct (PyStr.lt (version_text M minor p) "2.0.0") eqn:E;
      [reflexivity|].
    now rewrite (lt_false_ge _ _ E).
Qed.

(** X2 on the versions 1.15.2 and 2.5.1 of a Linux host. *)
Lemma bazel_requirement_follows_integer_examples :
  (exists n, get_tf_version_integer Sample.linux_old_tf = Ok n
             /\ _VALID_BAZEL_VERSION Sample.linux_old_tf "1.15.2"
                = Ok (if n <? 2000 then "0.26.1" else "4.2.1"))
  /\ (exists n, get_tf_version_integer Sample.linux = Ok n
                /\ _VALID_BAZEL_VERSION Sample.linux "2.5.1"
                   = Ok (if n <? 2000 then "0.26.1" else "4.2.1")).
Proof.
  split.
  - apply (bazel_requirement_follows_integer Sample.linux_old_tf 1 [1; 5] 2).
    + lia.
    + repeat constructor; unfold is_digit; lia.
    + simpl; lia.
    + unfold is_digit; lia.
    + reflexivity.
    + reflexivity.
  - apply (bazel_requirement_follows_integer Sample.linux 2 [5] 1).
    + lia.
    + repeat constructor; unfold is_digit; lia.
    + simpl; lia.
    + unfold is_digit; lia.
    + reflexivity.
    + reflexivity.
Defined.

(** ** Slices *)

Lemma length_drop (k : nat) (s : string) :
  String.length (PyStr.drop k s) = (String.length s - k)%nat.
Proof.
  revert s. induction k as [|k IH]; intros [|c r]; simpl; try reflexivity.
  apply IH.
Qed.

Lemma take_all (n : nat) (s : string) :
  (String.length s <= n)%nat -> PyStr.take n s = s.
Proof.
  revert s. induction n as [|n IH]; intros [|c r]; simpl; intros H;
    try reflexivity; try lia.
  rewrite IH by lia. reflexivity.
Qed.

Lemma drop_all (k : nat) (s : string) :
  (String.length s <= k)%nat -> PyStr.drop k s = EmptyString.
Proof.
  revert s. induction k as [|k IH]; intros [|c r]; simpl; intros H;
    try reflexivity; try lia.
  apply IH. lia.
Qed.

Lemma drop_app (a b : string) : PyStr.drop (String.length a) (a ++ b) = b.
Proof. induction a as [|c a IH]; simpl; [now destruct b | exact IH]. Qed.

Lemma take_app (a b : string) : PyStr.take (String.length a) (a ++ b) = a.
Proof.
  induction a as [|c a IH]; simpl; [now destruct b | now rewrite IH].
Qed.

(** [s[k:]] drops the first [k] characters, and gives the empty string when
    there are fewer. *)
Lemma slice_from (k : nat) (s : string) :
  PyStr.slice (Some (Z.of_nat k)) None s = PyStr.drop k s.
Proof.
  unfold PyStr.slice, PyStr.clamp, PyStr.len.
  replace (Z.of_nat k <? 0) with false by (symmetry; apply Z.ltb_ge; lia).
  destruct (Nat.le_gt_cases k (String.length s)) as [H|H].
  - rewrite Z.min_l by lia. rewrite Nat2Z.id.
    apply take_all. rewrite length_drop. lia.
  - rewrite Z.min_r by lia. rewrite Nat2Z.id.
    rewrite (drop_all (String.length s)) by lia.
    rewrite (drop_all k) by lia. now destruct (Z.to_nat _).
Qed.

(** [s[2:-7]] on a string made of 2 characters, a middle part and 7
    characters is the middle part. *)
Lemma slice_2_7 (p root sfx : string) :
  String.length p = 2%nat -> String.length sfx = 7%nat ->
  PyStr.slice (Some 2) (Some (-7)) (p ++ root ++ sfx) = root.
Proof.
  intros Hp Hs. unfold PyStr.slice, PyStr.clamp, PyStr.len.
  rewrite !length_append, Hp, Hs.
  change (2 <? 0) with false. change (-7 <? 0) with true. cbv iota.
  rewrite Z.min_l by lia. rewrite Z.max_l by lia.
  replace (Z.to_nat 2) with (String.length p) by (rewrite Hp; reflexivity).
  rewrite drop_app.
  replace (Z.to_nat _) with (String.length root) by lia.
  apply take_app.
Qed.

(** [s[2:-7]] on a string of at most 9 characters is empty. *)
Lemma slice_2_7_short (s : string) :
  (String.length s <= 9)%nat ->
  PyStr.slice (Some 2) (Some (-7)) s = EmptyString.
Proof.
  intros H. unfold PyStr.slice, PyStr.clamp, PyStr.len.
  change (2 <? 0) with false. change (-7 <? 0) with true. cbv iota.
  replace (Z.to_nat _) with 0%nat by lia. reflexivity.
Qed.

(** [(a + b)[:-len(b)]] is [a], for a non-empty [b]. *)
Lemma slice_to_neg (a b : string) :
  b <> EmptyString ->
  PyStr.slice None (Some (- PyStr.len b)) (a ++ b) = a.
Proof.
  intros Hb. unfold PyStr.slice, PyStr.clamp, PyStr.len.
  rewrite length_append.
  assert (0 < String.length b)%nat by (destruct b; [contradiction | simpl; lia]).
  replace (- Z.of_nat (String.length b) <? 0) with true
    by (symmetry; apply Z.ltb_lt; lia).
  rewrite Z.max_l by lia.
  replace (Z.to_nat _) with (String.length a) by lia.
  change (Z.to_nat 0) with 0%nat. cbn [PyStr.drop]. apply take_app.
Qed.

(** ** Replacing a character *)

(** After [s.replace(c, new)] for a single character [c] that [new] does not
    hold, [c] is gone. *)
Lemma replace_char_gone (c : ascii) (new s : string) :
  has_char c new = false ->
  has_char c (PyStr.replace (String c EmptyString) new s) = false.
Proof.
  intros Hn. unfold PyStr.replace.
  induction s as [|x r IH]; [reflexivity|].
  cbn [PyStr.replace_from PyStr.startswith String.length Nat.pred].
  destruct r as [|y r']; rewrite andb_true_r.
  - destruct (Ascii.eqb c x) eqn:E; cbn [has_char].
    + now rewrite has_char_append, Hn.
    + rewrite Ascii.eqb_sym, E. reflexivity.
  - destruct (Ascii.eqb c x) eqn:E.
    + rewrite has_char_append, Hn. exact IH.
    + cbn [has_char]. rewrite Ascii.eqb_sym, E. exact IH.
Qed.

(** ** The paths of TensorFlow *)

(** X3: for a TensorFlow of version integer 2000 or more, the header
    directory is the first compile flag without its first two characters,
    whatever these are, with every backslash turned into a slash on
    Windows; a flag of fewer than two characters gives the empty string,
    and an empty list of compile flags raises [IndexError]. *)
Theorem header_dir_of_compile_flag (h : host) (n : Z) :
  get_tf_version_integer h = Ok n -> 2000 <= n ->
  get_tf_header_dir h
  = match get_compile_flags h with
    | [] => Raise IndexError
    | flag :: _ =>
        Ok (if is_windows h then PyStr.replace "\" "/" (PyStr.drop 2 flag)
            else PyStr.drop 2 flag)
    end.
Proof.
  intros Hn Hge. unfold get_tf_header_dir. rewrite Hn. cbn [rbind].
  replace (2000 <=? n) with true by (symmetry; apply Z.leb_le; exact Hge).
  destruct (get_compile_flags h) as [|flag rest]; [reflexivity|].
  cbn [index nth_error rbind].
  change (Some 2) with (Some (Z.of_nat 2)). rewrite slice_from.
  now destruct (is_windows h).
Qed.

(** X3 on a Linux host with TensorFlow 2.5.1 under [/opt/tf]. *)
Lemma header_dir_of_compile_flag_example :
  get_tf_header_dir Sample.linux = Ok "/opt/tf/include".
Proof.
  rewrite (header_dir_of_compile_flag Sample.linux 2051).
  - reflexivity.
  - reflexivity.
  - lia.
Defined.

(** X4: on Windows no path handed to Bazel holds a backslash, as far as
    the paths come from the compile flags: the directory of the shared
    library never does, and the header directory does not for a TensorFlow
    of version integer 2000 or more. *)
Theorem windows_paths_without_backslash (h : host) :
  is_windows h = true ->
  (forall dir, get_tf_shared_lib_dir h = Ok dir -> has_char "\" dir = false)
  /\ (forall n dir,
         get_tf_version_integer h = Ok n -> 2000 <= n ->
         get_tf_header_dir h = Ok dir -> has_char "\" dir = false).
Proof.
  intros Hw. split.
  - intros dir H. unfold get_tf_shared_lib_dir in H. rewrite Hw in H.
    apply rbind_ok in H as (flag & _ & H). injection H as <-.
    now apply replace_char_gone.
  - intros n dir Hn Hge H. unfold get_tf_header_dir in H. rewrite Hn in H.
    cbn [rbind] in H.
    replace (2000 <=? n) with true in H
      by (symmetry; apply Z.leb_le; exact Hge).
    apply rbind_ok in H as (flag & _ & H). rewrite Hw in H. injection H as <-.
    now apply replace_char_gone.
Qed.

(** X4 on a Windows host whose TensorFlow sits under [C:\tf]. *)
Lemma windows_paths_without_backslash_example :
  get_tf_shared_lib_dir windows_backslash = Ok "C:/tf/python"
  /\ has_char "\" "C:/tf/python" = false.
Proof.
  split; [reflexivity|].
  apply (proj1 (windows_paths_without_backslash windows_backslash eq_refl)).
  reflexivity.
Defined.

(** X5: where the directory of the shared library comes from.  On Windows,
    and on a Raspberry Pi (machine [armv7l]), it is the first compile flag
    without its first 2 and its last 7 characters, whatever these are,
    followed by [python]; Windows alone turns backslashes into slashes.  On
    every other host it is the first link flag without its first 2
    characters, and an empty list of link flags raises [IndexError]. *)
Theorem shared_lib_dir_by_host (h : host) :
  (forall p root sfx rest,
      String.length p = 2%nat -> String.length sfx = 7%nat ->
      get_compile_flags h = (p ++ root ++ sfx) :: rest ->
      (is_windows h = true ->
       get_tf_shared_lib_dir h = Ok (PyStr.replace "\" "/" (root ++ "python")))
      /\ (is_windows h = false -> os_uname_machine h = Some "armv7l" ->
          get_tf_shared_lib_dir h = Ok (root ++ "python")))
  /\ (forall m,
         is_windows h = false -> os_uname_machine h = Some m -> m <> "armv7l" ->
         get_tf_shared_lib_dir h
         = match get_link_flags h with
           | [] => Raise IndexError
           | flag :: _ => Ok (PyStr.drop 2 flag)
           end).
Proof.
  split.
  - intros p root sfx rest Hp Hs Hf. unfold get_tf_shared_lib_dir, is_raspi_arm.
    rewrite Hf. cbn [index nth_error rbind]. rewrite (slice_2_7 p root sfx Hp Hs).
    split.
    + now intros ->.
    + now intros -> ->.
  - intros m Hw Hu Hm. unfold get_tf_shared_lib_dir, is_raspi_arm.
    rewrite Hw, Hu. cbn [rbind].
    apply String.eqb_neq in Hm. rewrite Hm.
    destruct (get_link_flags h) as [|flag rest]; [reflexivity|].
    cbn [index nth_error rbind].
    change (Some 2) with (Some (Z.of_nat 2)). now rewrite slice_from.
Qed.

(** X5 on a Raspberry Pi and on a Linux host, both with TensorFlow under
    [/opt/tf]. *)
Lemma shared_lib_dir_by_host_examples :
  get_tf_shared_lib_dir raspberry = Ok "/opt/tf/python"
  /\ get_tf_shared_lib_dir Sample.linux = Ok "/opt/tf".
Proof.
  split.
  - apply (proj2 (proj1 (shared_lib_dir_by_host raspberry)
                    "-I" "/opt/tf/" "include" _ eq_refl eq_refl eq_refl));
      reflexivity.
  - rewrite (proj2 (shared_lib_dir_by_host Sample.linux) "x86_64").
    + reflexivity.
    + reflexivity.
    + reflexivity.
    + discriminate.
Defined.

(** ** A run that stops half way *)

Lemma world_eta (w : world) :
  w = {| bazelrc := bazelrc w; written := written w |}.
Proof. now destruct w. Qed.

Lemma add_removed_start (ls : list string) (file : option string) :
  add ls (removed (start file))
  = {| bazelrc := match ls with [] => None | _ => Some (unlines ls) end;
       written := ls |}.
Proof.
  rewrite (world_eta (add ls _)), add_written, add_removed_bazelrc.
  reflexivity.
Qed.

(** X6: a host that is neither macOS, Windows nor a Raspberry Pi needs two
    link flags.  With one link flag only, a run that has passed its checks
    raises [IndexError] when it looks for the name of the shared library,
    after the lines of [TF_HEADER_DIR] and [TF_SHARED_LIBRARY_DIR] have been
    written: it leaves a file of exactly these two lines. *)
Theorem one_link_flag_leaves_two_lines (h : host) (file : option string)
        (hdr flag m : string) :
  validation h = Ok tt ->
  get_tf_header_dir h = Ok hdr ->
  is_macos h = false -> is_windows h = false ->
  os_uname_machine h = Some m -> m <> "armv7l" ->
  get_link_flags h = [flag] ->
  create_build_configuration h (start file)
  = (Raise IndexError,
     {| bazelrc :=
          Some (unlines [action_env "TF_HEADER_DIR" hdr;
                         action_env "TF_SHARED_LIBRARY_DIR" (PyStr.drop 2 flag)]);
        written := [action_env "TF_HEADER_DIR" hdr;
                    action_env "TF_SHARED_LIBRARY_DIR" (PyStr.drop 2 flag)] |}).
Proof.
  intros V Hh Hmac Hw Hu Hm Hf. rewrite run_outcome.
  assert (Hd : get_tf_shared_lib_dir h = Ok (PyStr.drop 2 flag)).
  { unfold get_tf_shared_lib_dir, is_raspi_arm. rewrite Hw, Hu, Hf.
    cbn [rbind]. apply String.eqb_neq in Hm. rewrite Hm.
    cbn [index nth_error rbind].
    change (Some 2) with (Some (Z.of_nat 2)). now rewrite slice_from. }
  assert (Hn : get_shared_lib_name h = Raise IndexError).
  { unfold get_shared_lib_name, is_raspi_arm. cbv zeta.
    rewrite Hmac, Hw, Hu, Hf. cbn [rbind].
    apply String.eqb_neq in Hm. now rewrite Hm. }
  unfold outcome. rewrite V, Hh, Hd, Hn. cbn [fst snd].
  now rewrite add_removed_start.
Qed.

(** X6 on a Linux host with the single link flag [-L/opt/tf]. *)
Lemma one_link_flag_leaves_two_lines_example :
  create_build_configuration linux_one_link_flag (start (Some "stale"))
  = (Raise IndexError,
     {| bazelrc :=
          Some (unlines [action_env "TF_HEADER_DIR" "/opt/tf/include";
                         action_env "TF_SHARED_LIBRARY_DIR" "/opt/tf"]);
        written := [action_env "TF_HEADER_DIR" "/opt/tf/include";
                    action_env "TF_SHARED_LIBRARY_DIR" "/opt/tf"] |}).
Proof.
  apply (one_link_flag_leaves_two_lines linux_one_link_flag (Some "stale")
           "/opt/tf/include" "-L/opt/tf" "x86_64").
  - vm_compute. reflexivity.
  - vm_compute. reflexivity.
  - reflexivity.
  - reflexivity.
  - reflexivity.
  - discriminate.
  - reflexivity.
Defined.

(** ** Unpacking the headers of an old TensorFlow *)

Ltac head_differs :=
  repeat lazymatch goal with
    | |- (Ascii.eqb ?a ?b && _) = false =>
        let E := fresh "E" in
        destruct (Ascii.eqb a b) eqn:E; cbn [andb];
        [try (vm_compute in E; discriminate E) | reflexivity]
    end.

(** [/tensorflow] does not overlap itself: an occurrence cannot start in
    [q] and end in a copy of [/tensorflow] put after [q]. *)
Lemma startswith_tensorflow_app (q : string) :
  q <> EmptyString ->
  PyStr.startswith "/tensorflow" q = false ->
  PyStr.startswith "/tensorflow" (q ++ "/tensorflow") = false.
Proof.
  destruct q as [|c0 [|c1 [|c2 [|c3 [|c4 [|c5 [|c6 [|c7 [|c8 [|c9 [|c10 q]
    ]]]]]]]]]]; intros Hne H; [contradiction|..];
    cbn [PyStr.startswith append] in *; try exact H; head_differs.
Qed.

Lemma replace_from_cons (old new : string) (c : ascii) (r : string) :
  PyStr.replace_from old new 0 (String c r)
  = if PyStr.startswith old (String c r)
    then new ++ PyStr.replace_from old new (Nat.pred (String.length old)) r
    else String c (PyStr.replace_from old new 0 r).
Proof. reflexivity. Qed.

(** When [/tensorflow] does not occur in [p], replacing it in
    [p + "/tensorflow"] touches the end only. *)
Lemma replace_tensorflow_suffix (new p : string) :
  contains "/tensorflow" p = false ->
  PyStr.replace "/tensorflow" new (p ++ "/tensorflow") = p ++ new.
Proof.
  unfold PyStr.replace. induction p as [|c p IH]; intros H.
  - cbn. now rewrite append_empty_r.
  - change (contains "/tensorflow" (String c p))
      with (PyStr.startswith "/tensorflow" (String c p)
            || contains "/tensorflow" p) in H.
    apply orb_false_iff in H as [Hs Hc].
    change (String c p ++ "/tensorflow") with (String c (p ++ "/tensorflow")).
    rewrite replace_from_cons.
    change (String c (p ++ "/tensorflow")) with (String c p ++ "/tensorflow").
    rewrite (startswith_tensorflow_app (String c p)) by (discriminate || exact Hs).
    cbn [append]. now rewrite (IH Hc).
Qed.

(** X7: for a TensorFlow of version integer below 2000, and when
    [/tensorflow] occurs neither in the directory of the script nor in the
    version, [extract_tf_header] runs one command, which unpacks
    [<dir>/build_deps/tf_header/<version>.tar.gz] into
    [<dir>/build_deps/tf_header/]; it succeeds when the command returns 0
    and raises the [ValueError] of line 205, which names the archive,
    otherwise. *)
Theorem legacy_tar_command (h : host) (n : Z) (version : string) :
  tf_version h = Some version ->
  get_tf_version_integer h = Ok n -> n < 2000 ->
  contains "/tensorflow" (script_dir h ++ "/build_deps/tf_header/" ++ version)
  = false ->
  extract_tf_header h
  = if os_system h
         ("tar -zxvf "
            ++ ((script_dir h ++ "/build_deps/tf_header/" ++ version)
                  ++ ".tar.gz")
            ++ " --directory "
            ++ (script_dir h ++ "/build_deps/tf_header/")
            ++ " >/dev/null 2>&1") =? 0
    then Ok tt
    else Raise (ValueError_tar
                  ((script_dir h ++ "/build_deps/tf_header/" ++ version)
                     ++ ".tar.gz")).
Proof.
  intros Hv Hn Hlt Hc.
  unfold extract_tf_header, get_tf_header_dir, tf_version_attr.
  rewrite Hn, Hv. cbn [rbind].
  replace (2000 <=? n) with false by (symmetry; apply Z.leb_gt; exact Hlt).
  replace (n <? 2000) with true by (symmetry; apply Z.ltb_lt; exact Hlt).
  cbn [rbind].
  assert (Hs : PyStr.slice None (Some (- PyStr.len (version ++ "/tensorflow")))
                 (script_dir h ++ "/build_deps/tf_header/" ++ version
                    ++ "/tensorflow")
               = script_dir h ++ "/build_deps/tf_header/").
  { replace (script_dir h ++ "/build_deps/tf_header/" ++ version
               ++ "/tensorflow")
      with ((script_dir h ++ "/build_deps/tf_header/")
              ++ (version ++ "/tensorflow"))
      by now rewrite !append_assoc.
    apply slice_to_neg. destruct version; discriminate. }
  assert (Hr : PyStr.replace "/tensorflow" ".tar.gz"
                 (script_dir h ++ "/build_deps/tf_header/" ++ version
                    ++ "/tensorflow")
               = (script_dir h ++ "/build_deps/tf_header/" ++ version)
                   ++ ".tar.gz").
  { replace (script_dir h ++ "/build_deps/tf_header/" ++ version
               ++ "/tensorflow")
      with ((script_dir h ++ "/build_deps/tf_header/" ++ version)
              ++ "/tensorflow")
      by now rewrite !append_assoc.
    now apply replace_tensorflow_suffix. }
  rewrite Hs, Hr. now destruct (_ =? 0).
Qed.

(** X7 on a Linux host with TensorFlow 1.15.2 in [/src], whose [tar]
    accepts this one command only. *)
Lemma legacy_tar_command_example :
  extract_tf_header linux_old_tf_strict_tar = Ok tt.
Proof.
  rewrite (legacy_tar_command linux_old_tf_strict_tar 1152 "1.15.2").
  - reflexivity.
  - reflexivity.
  - reflexivity.
  - lia.
  - reflexivity.
Defined.

(** The replacement is blind: a script that sits under a directory named
    [tensorflow] looks for its archive in the wrong place. *)
Example legacy_tar_path_mangled :
  PyStr.replace "/tensorflow" ".tar.gz"
    "/home/tensorflow/addons/build_deps/tf_header/1.15.2/tensorflow"
  = "/home.tar.gz/addons/build_deps/tf_header/1.15.2.tar.gz".
Proof. reflexivity. Qed.

Lemma outcome_with_os_system (h : host) (f : string -> Z) :
  extract_tf_header (with_os_system h f) = extract_tf_header h ->
  outcome (with_os_system h f) = outcome h.
Proof.
  intros E. unfold outcome, validation. rewrite E. reflexivity.
Qed.

(** X8: for a TensorFlow of version integer 2000 or more no archive is
    unpacked: what [os.system] would answer has no influence on the run. *)
Theorem tar_not_run_for_tf2 (h : host) (n : Z) (f : string -> Z) (w : world) :
  get_tf_version_integer h = Ok n -> 2000 <= n ->
  create_build_configuration (with_os_system h f) w
  = create_build_configuration h w.
Proof.
  intros Hn Hge. rewrite !run_outcome. rewrite outcome_with_os_system;
    [reflexivity|].
  unfold extract_tf_header.
  change (get_tf_header_dir (with_os_system h f)) with (get_tf_header_dir h).
  change (get_tf_version_integer (with_os_system h f))
    with (get_tf_version_integer h).
  rewrite Hn. destruct (get_tf_header_dir h); [|reflexivity]. cbn [rbind].
  replace (n <? 2000) with false by (symmetry; apply Z.ltb_ge; exact Hge).
  reflexivity.
Qed.

(** X8 on a Linux host with TensorFlow 2.5.1 whose [tar] always fails: the
    run is the one of the host with a working [tar]. *)
Lemma tar_not_run_for_tf2_example :
  create_build_configuration linux_broken_tar (start None)
  = create_build_configuration Sample.linux (start None).
Proof.
  apply (tar_not_run_for_tf2 Sample.linux 2051).
  - reflexivity.
  - lia.
Defined.

(** ** The output of [bazel version] *)

Lemma split_two (sep : ascii) (s : string) :
  has_char sep s = true -> exists a b rest, PyStr.split sep s = a :: b :: rest.
Proof.
  induction s as [|c r IH]; simpl; [discriminate|].
  destruct (Ascii.eqb c sep); simpl.
  - intros _. pose proof (split_not_nil sep r) as Hn.
    destruct (PyStr.split sep r) as [|x xs]; [contradiction|].
    now exists EmptyString, x, xs.
  - intros H. destruct (IH H) as (a & b & rest & ->).
    now exists (String c a), b, rest.
Qed.

(** Without a colon in the output there is no second field. *)
Lemma installed_bazel_no_colon (h : host) :
  has_char ":" (bazel_label h) = false ->
  _get_installed_and_valid_bazel_version h = Raise IndexError.
Proof.
  intros H. unfold _get_installed_and_valid_bazel_version.
  now rewrite (split_no_sep ":" _ H).
Qed.

Lemma installed_bazel_no_version (h : host) :
  has_char ":" (bazel_label h) = true -> tf_version h = None ->
  _get_installed_and_valid_bazel_version h = Raise AttributeError.
Proof.
  intros H Hv. unfold _get_installed_and_valid_bazel_version, tf_version_attr.
  destruct (split_two ":" _ H) as (a & b & rest & ->). now rewrite Hv.
Qed.

Lemma checks_raise (h : host) (e : exn) :
  _get_installed_and_valid_bazel_version h = Raise e ->
  is_linux h = true \/ is_macos h && is_arm64 h = true ->
  validation h = Raise e.
Proof.
  intros H [Hl|Hm]; unfold validation.
  - rewrite Hl. unfold check_bazel_version. now rewrite H.
  - assert (Hl : is_linux h = false).
    { apply andb_true_iff in Hm as [Hm _]. now apply macos_not_linux. }
    rewrite Hl, Hm. unfold check_bazel_version_for_macOS_arm64. now rewrite H.
Qed.

(** X9: when the module [tf] has no [__version__], the friendly
    [ImportError] of line 141 is what a run ends with only on a host that
    is neither Linux nor macOS arm64.  On Linux and on macOS arm64 the check
    of Bazel comes first and reads [tf.__version__] unprotected: the run
    ends with [AttributeError], or with [IndexError] when the output of
    Bazel has no colon.  In all cases no file is left. *)
Theorem missing_tensorflow (h : host) (file : option string) :
  tf_version h = None ->
  (is_linux h = false -> is_macos h && is_arm64 h = false ->
   create_build_configuration h (start file)
   = (Raise ImportError_tensorflow, start None))
  /\ (is_linux h = true \/ is_macos h && is_arm64 h = true ->
      create_build_configuration h (start file)
      = (Raise (if has_char ":" (bazel_label h)
                then AttributeError else IndexError), start None)).
Proof.
  intros Hv. split.
  - intros Hl Hm.
    assert (V : validation h = Raise ImportError_tensorflow).
    { unfold validation, extract_tf_header, get_tf_header_dir,
        get_tf_version_integer. now rewrite Hl, Hm, Hv. }
    now rewrite run_outcome, (outcome_validation_raise h _ V).
  - intros Hhost. rewrite run_outcome.
    destruct (has_char ":" (bazel_label h)) eqn:E.
    + rewrite (outcome_validation_raise h AttributeError); [reflexivity|].
      apply checks_raise; [|exact Hhost].
      now apply installed_bazel_no_version.
    + rewrite (outcome_validation_raise h IndexError); [reflexivity|].
      apply checks_raise; [|exact Hhost].
      now apply installed_bazel_no_colon.
Qed.

(** X9 on a Windows host and on a Linux host. *)
Lemma missing_tensorflow_examples :
  create_build_configuration windows_no_tf (start None)
  = (Raise ImportError_tensorflow, start None)
  /\ create_build_configuration linux_no_tf (start None)
     = (Raise AttributeError, start None).
Proof.
  split.
  - apply (proj1 (missing_tensorflow windows_no_tf None eq_refl));
      reflexivity.
  - apply (proj2 (missing_tensorflow linux_no_tf None eq_refl)).
    left. reflexivity.
Defined.

(** X10: on Linux and on macOS arm64, when the output of
    [bazel version |grep label] holds no colon (it is empty when Bazel is
    not installed), the run ends with [IndexError] and no file is left,
    whatever TensorFlow is installed. *)
Theorem bazel_output_without_colon (h : host) (file : option string) :
  has_char ":" (bazel_label h) = false ->
  is_linux h = true \/ is_macos h && is_arm64 h = true ->
  create_build_configuration h (start file) = (Raise IndexError, start None).
Proof.
  intros H Hhost. rewrite run_outcome.
  rewrite (outcome_validation_raise h IndexError); [reflexivity|].
  apply checks_raise; [|exact Hhost]. now apply installed_bazel_no_colon.
Qed.

(** X10 on a Linux host without Bazel. *)
Lemma bazel_output_without_colon_example :
  create_build_configuration linux_no_bazel (start (Some "stale"))
  = (Raise IndexError, start None).
Proof.
  apply (bazel_output_without_colon linux_no_bazel (Some "stale")).
  - reflexivity.
  - left. reflexivity.
Defined.

Lemma length_lstrip (s : string) :
  (String.length (PyStr.lstrip s) <= String.length s)%nat.
Proof.
  induction s as [|c r IH]; simpl; [lia|].
  destruct (PyStr.isspace c); simpl; lia.
Qed.

Lemma lstrip_fixed_app (v t : string) :
  v <> EmptyString -> PyStr.lstrip v = v -> PyStr.lstrip (v ++ t) = v ++ t.
Proof.
  destruct v as [|c r]; [contradiction|]. intros _ H. simpl in *.
  destruct (PyStr.isspace c); [|reflexivity].
  pose proof (length_lstrip r) as L. rewrite H in L. simpl in L. lia.
Qed.

Lemma rstrip_app_space (s : string) (c : ascii) :
  PyStr.isspace c = true ->
  PyStr.rstrip (s ++ String c EmptyString) = PyStr.rstrip s.
Proof.
  intros Hc. induction s as [|x r IH]; simpl.
  - now rewrite Hc.
  - now rewrite IH.
Qed.

(** X11: the version of the installed Bazel is what stands between the
    first colon of the output and the next one, without the white space
    around it: for an output [<label>: <version>] followed by a newline,
    with no colon in [<label>] and [<version>] and no white space at the
    ends of [<version>], it is [<version>]. *)
Theorem installed_bazel_of_label (h : host) (label version tf valid : string) :
  bazel_label h = label ++ ": " ++ version ++ newline ->
  has_char ":" label = false -> has_char ":" version = false ->
  PyStr.lstrip version = version -> PyStr.rstrip version = version ->
  tf_version h = Some tf ->
  _VALID_BAZEL_VERSION h tf = Ok valid ->
  _get_installed_and_valid_bazel_version h = Ok (version, valid).
Proof.
  intros Hb Hl Hv Hls Hrs Ht Hval.
  unfold _get_installed_and_valid_bazel_version, tf_version_attr.
  rewrite Hb, Ht.
  change (label ++ ": " ++ version ++ newline)
    with (label ++ String ":" (String " " (version ++ newline))).
  rewrite (split_app ":" label _ Hl).
  rewrite (split_no_sep ":" (String " " (version ++ newline)))
    by (cbn [has_char]; rewrite has_char_append, Hv; reflexivity).
  cbn [index nth_error rbind]. rewrite Hval. cbn [rbind]. do 2 f_equal.
  unfold PyStr.strip. change (PyStr.lstrip (String " " (version ++ newline)))
    with (PyStr.lstrip (version ++ newline)).
  destruct version as [|c r]; [reflexivity|].
  rewrite (lstrip_fixed_app (String c r) newline ltac:(discriminate) Hls).
  unfold newline. rewrite rstrip_app_space by reflexivity. exact Hrs.
Qed.

(** X11 on the output [Build label: 4.2.1]. *)
Lemma installed_bazel_of_label_example :
  _get_installed_and_valid_bazel_version
    (with_bazel_label Sample.linux ("Build label: 4.2.1" ++ newline))
  = Ok ("4.2.1", "4.2.1").
Proof.
  apply (installed_bazel_of_label _ "Build label" "4.2.1" "2.5.1" "4.2.1");
    reflexivity.
Defined.

(** ** The order of strings on Bazel versions *)

Lemma lt_first_char (c : ascii) (r : string) :
  (PyStr.code c < 52)%N -> PyStr.lt (String c r) "4.1.0" = true.
Proof.
  intros H. unfold PyStr.lt, String.ltb. cbn [String.compare].
  unfold Ascii.compare. change (N_of_ascii "4") with 52%N.
  unfold PyStr.code in H. apply N.compare_lt_iff in H. now rewrite H.
Qed.

(** X12: on macOS arm64 the installed Bazel is compared with 4.1.0 as a
    string.  Every installed version whose first character sorts before the
    character 4 is refused, also the versions 10 and above, which start with
    the character 1: the run raises the error of line 190 and leaves no
    file. *)
Theorem macos_arm64_refuses_by_first_char (h : host) (file : option string)
        (c : ascii) (r valid : string) :
  is_macos h && is_arm64 h = true ->
  _get_installed_and_valid_bazel_version h = Ok (String c r, valid) ->
  (PyStr.code c < 52)%N ->
  valid = "4.1.0"
  /\ create_build_configuration h (start file)
     = (Raise (ValueError_bazel_macos_arm64 (String c r) "4.1.0"), start None).
Proof.
  intros Hm Hiv Hc.
  assert (Hval : valid = "4.1.0").
  { unfold _get_installed_and_valid_bazel_version in Hiv.
    apply rbind_ok in Hiv as (field & _ & Hiv).
    apply rbind_ok in Hiv as (tf & _ & Hiv).
    apply rbind_ok in Hiv as (v & Hv & Hiv).
    unfold _VALID_BAZEL_VERSION in Hv. rewrite Hm in Hv. congruence. }
  subst valid. split; [reflexivity|].
  assert (Hl : is_linux h = false).
  { apply andb_true_iff in Hm as [Hm _]. now apply macos_not_linux. }
  rewrite run_outcome.
  rewrite (outcome_validation_raise h
             (ValueError_bazel_macos_arm64 (String c r) "4.1.0"));
    [reflexivity|].
  unfold validation, check_bazel_version_for_macOS_arm64.
  rewrite Hl, Hm, Hiv. cbn [rbind]. now rewrite (lt_first_char c r Hc).
Qed.

(** X12 on a macOS arm64 host with Bazel 10.0.0. *)
Lemma macos_arm64_refuses_bazel_10 :
  "4.1.0" = "4.1.0"
  /\ create_build_configuration macos_arm64_bazel_10 (start None)
     = (Raise (ValueError_bazel_macos_arm64 "10.0.0" "4.1.0"), start None).
Proof.
  apply (macos_arm64_refuses_by_first_char macos_arm64_bazel_10 None
           "1" "0.0.0" "4.1.0").
  - reflexivity.
  - reflexivity.
  - reflexivity.
Defined.

(** ** Appending *)

(** X13: [configure_cuda] and [configure_rocm] never fail and only append:
    they leave what the file holds in place and add their lines, nine for
    CUDA and eight for ROCm, each followed by a newline. *)
Theorem gpu_blocks_append (h : host) (w : world) :
  configure_cuda h w
  = (Ok tt,
     {| bazelrc := Some (file_text w ++ unlines (block (configure_cuda h)));
        written := (written w ++ block (configure_cuda h))%list |})
  /\ configure_rocm h w
     = (Ok tt,
        {| bazelrc := Some (file_text w ++ unlines (block (configure_rocm h)));
           written := (written w ++ block (configure_rocm h))%list |})
  /\ List.length (block (configure_cuda h)) = 9%nat
  /\ List.length (block (configure_rocm h)) = 8%nat.
Proof.
  rewrite block_configure_cuda, block_configure_rocm.
  rewrite (configure_cuda_emits h w), (configure_rocm_emits h w).
  rewrite (world_eta (add (cuda_lines h) w)), (world_eta (add (rocm_lines h) w)).
  rewrite !add_written, !add_bazelrc.
  repeat split.
Qed.

(** ** The file, line by line *)

Lemma split_unlines (ls : list string) :
  Forall one_line ls ->
  PyStr.split (ascii_of_N 10) (unlines ls) = (ls ++ [EmptyString])%list.
Proof.
  induction 1 as [|l ls Hl _ IH]; [reflexivity|].
  change (unlines (l :: ls)) with (l ++ String (ascii_of_N 10) (unlines ls)).
  rewrite (split_app _ l _ Hl), IH. reflexivity.
Qed.

(** X14: when no line written by a run that succeeds holds a newline (no
    path and no value of the environment does), the file read back and
    split at the newlines gives the lines written, in order, followed by
    one empty string. *)
Theorem file_lines_round_trip (h : host) (file : option string) (w' : world) :
  create_build_configuration h (start file) = (Ok tt, w') ->
  Forall one_line (written w') ->
  exists text,
    bazelrc w' = Some text
    /\ PyStr.split (ascii_of_N 10) text = (written w' ++ [EmptyString])%list.
Proof.
  intros H Hl.
  destruct (run_ok h file w' H) as (hdr & dir & name & n & _ & _ & _ & _ & _
                                    & Hw & Hb).
  exists (unlines (written w')). split.
  - now rewrite Hw.
  - now apply split_unlines.
Qed.

(** X14 on a Linux host with [TF_NEED_ROCM=1]. *)
Lemma file_lines_round_trip_example :
  exists text,
    bazelrc (snd (create_build_configuration Sample.linux_rocm (start None)))
    = Some text
    /\ PyStr.split (ascii_of_N 10) text
       = (written (snd (create_build_configuration Sample.linux_rocm
                          (start None))) ++ [EmptyString])%list.
Proof.
  apply (file_lines_round_trip Sample.linux_rocm None).
  - vm_compute. reflexivity.
  - vm_compute. repeat (apply Forall_cons; [reflexivity|]). apply Forall_nil.
Defined.

(** A newline in a value of the environment breaks a line in two. *)
Example newline_in_value :
  PyStr.split (ascii_of_N 10)
    (unlines [action_env "FOR_TF_SERVING" ("0" ++ newline ++ "1")])
  = ["build --action_env FOR_TF_SERVING=" ++ dquote ++ "0";
     "1" ++ dquote; EmptyString].
Proof. reflexivity. Qed.

(** ** Exceptions that a run does not raise *)

Lemma valid_bazel_version_ok (h : host) (tf : string) :
  exists v, _VALID_BAZEL_VERSION h tf = Ok v
            /\ (v = "4.1.0" /\ is_macos h && is_arm64 h = true
                \/ (v = "0.26.1" \/ v = "4.2.1")
                   /\ is_macos h && is_arm64 h = false).
Proof.
  unfold _VALID_BAZEL_VERSION. destruct (is_macos h && is_arm64 h).
  - exists "4.1.0". auto.
  - destruct (PyStr.lt tf "2.0.0") eqn:E.
    + exists "0.26.1". auto.
    + rewrite (lt_false_ge _ _ E). exists "4.2.1". auto.
Qed.

Lemma installed_and_valid_supported (h : host) (e : exn) :
  _get_installed_and_valid_bazel_version h = Raise e -> unsupported e = false.
Proof.
  unfold _get_installed_and_valid_bazel_version. intros H.
  apply rbind_raise in H as [H|(field & _ & H)];
    [apply index_raise in H; now subst|].
  apply rbind_raise in H as [H|(tf & _ & H)];
    [apply tf_version_attr_raise in H; now subst|].
  apply rbind_raise in H as [H|(v & _ & H)]; [|discriminate H].
  destruct (valid_bazel_version_ok h tf) as (v & Hv & _). congruence.
Qed.

Lemma check_bazel_version_supported (h : host) (e : exn) :
  check_bazel_version h = Raise e -> unsupported e = false.
Proof.
  unfold check_bazel_version. intros H.
  apply rbind_raise in H as [H|([i v] & _ & H)];
    [now apply installed_and_valid_supported in H|].
  destruct (negb _); [now injection H as <- | discriminate H].
Qed.

Lemma check_bazel_version_macos_supported (h : host) (e : exn) :
  check_bazel_version_for_macOS_arm64 h = Raise e -> unsupported e = false.
Proof.
  unfold check_bazel_version_for_macOS_arm64. intros H.
  apply rbind_raise in H as [H|([i v] & _ & H)];
    [now apply installed_and_valid_supported in H|].
  destruct (PyStr.lt _ _); [now injection H as <- | discriminate H].
Qed.

Lemma get_tf_version_integer_supported (h : host) (e : exn) :
  get_tf_version_integer h = Raise e -> unsupported e = false.
Proof.
  unfold get_tf_version_integer. intros H.
  destruct (tf_version h) as [version|]; [|injection H as <-; reflexivity].
  destruct (split_version version) as [[[major minor] patch]|];
    [|injection H as <-; reflexivity].
  raised H.
Qed.

Lemma get_tf_header_dir_supported (h : host) (e : exn) :
  get_tf_header_dir h = Raise e -> unsupported e = false.
Proof.
  unfold get_tf_header_dir. intros H. raised H.
  now apply get_tf_version_integer_supported in H.
Qed.

Lemma extract_tf_header_supported (h : host) (e : exn) :
  extract_tf_header h = Raise e -> unsupported e = false.
Proof.
  unfold extract_tf_header. intros H. raised H.
  - now apply get_tf_header_dir_supported in H.
  - now apply get_tf_version_integer_supported in H.
Qed.

Lemma get_tf_shared_lib_dir_supported (h : host) (e : exn) :
  get_tf_shared_lib_dir h = Raise e -> unsupported e = false.
Proof.
  unfold get_tf_shared_lib_dir. intros H.
  destruct (is_windows h); raised H.
Qed.

Lemma get_shared_lib_name_supported (h : host) (e : exn) :
  get_shared_lib_name h = Raise e -> unsupported e = false.
Proof.
  unfold get_shared_lib_name. cbv zeta. intros H.
  destruct (is_macos h); [discriminate H|].
  destruct (is_windows h); [discriminate H|]. raised H.
Qed.

Lemma validation_supported (h : host) (e : exn) :
  validation h = Raise e -> unsupported e = false.
Proof.
  unfold validation. intros H.
  apply rbind_raise in H as [H|(_ & _ & H)].
  { destruct (is_linux h); [|discriminate H].
    now apply check_bazel_version_supported in H. }
  apply rbind_raise in H as [H|(_ & _ & H)].
  { destruct (is_macos h && is_arm64 h); [|discriminate H].
    now apply check_bazel_version_macos_supported in H. }
  now apply extract_tf_header_supported in H.
Qed.

(** X15: no run ends with the error of the last branch of
    [_VALID_BAZEL_VERSION] (line 50): whatever the host and the version of
    TensorFlow, a run that raises raises something else. *)
Theorem unsupported_version_never_raised (h : host) (file : option string)
        (e : exn) :
  fst (create_build_configuration h (start file)) = Raise e ->
  unsupported e = false.
Proof.
  rewrite run_result. unfold outcome. intros H.
  destruct (validation h) as [[]|e'] eqn:V; cbn [fst] in H;
    [|injection H as <-; now apply validation_supported in V].
  destruct (get_tf_header_dir h) eqn:E1; cbn [fst] in H;
    [|injection H as <-; now apply get_tf_header_dir_supported in E1].
  destruct (get_tf_shared_lib_dir h) eqn:E2; cbn [fst] in H;
    [|injection H as <-; now apply get_tf_shared_lib_dir_supported in E2].
  destruct (get_shared_lib_name h) eqn:E3; cbn [fst] in H;
    [|injection H as <-; now apply get_shared_lib_name_supported in E3].
  destruct (get_tf_version_integer h) eqn:E4; cbn [fst] in H;
    [discriminate H|].
  injection H as <-. now apply get_tf_version_integer_supported in E4.
Qed.

(** X15 on a Linux host whose TensorFlow has the version 10.0.0: the run
    raises, and what it raises is the complaint about Bazel. *)
Lemma unsupported_version_never_raised_example :
  unsupported (ValueError_bazel_version "4.2.1" "0.26.1") = false.
Proof.
  apply (unsupported_version_never_raised (Sample.of_version "10.0.0") None).
  vm_compute. reflexivity.
Defined.

(** ** What a run on Linux needs *)

(** X16: a run on Linux succeeds only when the installed Bazel is exactly
    the required one, and the required one is 0.26.1 or 4.2.1: no other
    Bazel, older or newer, lets a run on Linux succeed. *)
Theorem linux_success_needs_exact_bazel (h : host) (file : option string)
        (w' : world) :
  is_linux h = true ->
  create_build_configuration h (start file) = (Ok tt, w') ->
  exists v,
    _get_installed_and_valid_bazel_version h = Ok (v, v)
    /\ (v = "0.26.1" \/ v = "4.2.1").
Proof.
  intros Hl H.
  destruct (run_ok h file w' H) as (hdr & dir & name & n & V & _).
  unfold validation in V. rewrite Hl in V.
  apply rbind_ok in V as (u & Hc & _).
  unfold check_bazel_version in Hc.
  apply rbind_ok in Hc as ([i v] & Hiv & Hc).
  destruct (String.eqb i v) eqn:E; [|discriminate Hc].
  apply String.eqb_eq in E. subst i. exists v. split; [exact Hiv|].
  unfold _get_installed_and_valid_bazel_version in Hiv.
  apply rbind_ok in Hiv as (field & _ & Hiv).
  apply rbind_ok in Hiv as (tf & _ & Hiv).
  apply rbind_ok in Hiv as (v' & Hv & Hiv).
  injection Hiv as _ <-.
  destruct (valid_bazel_version_ok h tf) as (v0 & Hv0 & [[_ Hm]|[Hv1 _]]).
  - rewrite (linux_not_macos h Hl) in Hm. discriminate Hm.
  - congruence.
Qed.

(** X16 on a Linux host with TensorFlow 2.5.1 and Bazel 4.2.1. *)
Lemma linux_success_needs_exact_bazel_example :
  exists v,
    _get_installed_and_valid_bazel_version Sample.linux = Ok (v, v)
    /\ (v = "0.26.1" \/ v = "4.2.1").
Proof.
  apply (linux_success_needs_exact_bazel Sample.linux None
           (snd (create_build_configuration Sample.linux (start None)))).
  - reflexivity.
  - vm_compute. reflexivity.
Defined.

(** ** AVX on macOS and Linux *)

(** X17: a run that succeeds writes the AVX directive of the default
    configuration, [build --copt=-mavx], exactly when the host is macOS or
    Linux and its machine is not arm64. *)
Theorem default_avx_iff (h : host) (file : option string) (w' : world) :
  create_build_configuration h (start file) = (Ok tt, w') ->
  (In "build --copt=-mavx" (written w')
   <-> (is_macos h || is_linux h) && negb (is_arm64 h) = true).
Proof.
  intros H.
  destruct (run_ok h file w' H) as (hdr & dir & name & n & _ & _ & _ & _ & _
                                    & -> & _).
  unfold config_lines, avx_lines.
  destruct ((is_macos h || is_linux h) && negb (is_arm64 h)).
  - split; [reflexivity|]. intros _.
    apply in_or_app. right. apply in_or_app. right. apply in_or_app. right.
    apply in_or_app. left. left. reflexivity.
  - split; [|discriminate]. intros Hin. exfalso.
    apply in_app_or in Hin as [Hin|Hin];
      [unfold tf_lines in Hin; not_in_lines Hin|].
    apply in_app_or in Hin as [Hin|Hin]; [not_in_lines Hin|].
    apply in_app_or in Hin as [Hin|Hin].
    { unfold windows_lines in Hin. destruct (is_windows h); not_in_lines Hin. }
    apply in_app_or in Hin as [Hin|Hin]; [not_in_lines Hin|].
    unfold gpu_lines in Hin.
    destruct (need_cuda h); [unfold cuda_lines in Hin; not_in_lines Hin|].
    destruct (need_rocm h); [unfold rocm_lines in Hin; not_in_lines Hin|].
    contradiction.
Qed.

(** X17 on a Linux host with an x86_64 machine. *)
Lemma default_avx_iff_example :
  In "build --copt=-mavx"
     (written (snd (create_build_configuration Sample.linux (start None)))).
Proof.
  apply (proj2 (default_avx_iff Sample.linux None _
                  ltac:(vm_compute; reflexivity))).
  reflexivity.
Defined.
